(** * assets/icon/generate_icon.py: the Hello World icon generator

    The script is one routine, [generate_icon], a straight line of calls
    into the Pillow imaging library followed by a file write.  It is
    embedded here as a program in a state-and-exception monad over a
    world made of the image heap, the file system, the console and the
    chronological list of library calls.  Pillow itself and the machine
    the script runs on are not part of the repository: the rasteriser is
    an interface ([Raster]), float arithmetic is an interface ([Floats]),
    and which calls raise is an oracle ([raises]). *)

From Stdlib Require Import ZArith String List Reals Lia Lra.
From stdpp Require Import gmap strings list.

Open Scope string_scope.
Open Scope list_scope.
Open Scope Z_scope.

(** ** Values *)

Definition Color : Type := Z * Z * Z * Z.
Definition BBox : Type := Z * Z * Z * Z.

(** Tuple indexing [t[0]] .. [t[3]] on 4-tuples, [alpha] is band 3 of a color. *)
Definition item0 (t : Z * Z * Z * Z) : Z := let '(a, _, _, _) := t in a.
Definition item1 (t : Z * Z * Z * Z) : Z := let '(_, b, _, _) := t in b.
Definition item2 (t : Z * Z * Z * Z) : Z := let '(_, _, c, _) := t in c.
Definition item3 (t : Z * Z * Z * Z) : Z := let '(_, _, _, d) := t in d.
Definition alpha (c : Color) : Z := item3 c.

(** A font handle: what [ImageFont.truetype(path, size)] and
    [ImageFont.load_default()] return. *)
Inductive Font : Type :=
| TrueTypeFont (path : string) (size : Z)
| DefaultFont.

(** An image object: mode string, (width, height), and its pixels. *)
Record Image : Type := mkImage {
  im_mode : string;
  im_size : Z * Z;
  getpixel : Z -> Z -> Color
}.

(** [ImageDraw.Draw(im)] is a handle on the image it draws into. *)
Inductive ImageDraw : Type := Draw (im : nat).
Definition draw_im (d : ImageDraw) : nat := let 'Draw im := d in im.

(** What a file holds after [Image.save(path, format)]. *)
Inductive File : Type :=
| Encoded (format : string) (im : Image)
| Bytes (data : list Z).

(** Opening an image file and sampling one pixel of it. *)
Definition saved_pixel (files : gmap string File) (fp : string) (x y : Z)
    : option Color :=
  match files !! fp with
  | Some (Encoded _ im) => Some (getpixel im x y)
  | _ => None
  end.

(** ** Float arithmetic, as the [math] module and [int]/[float] mixing give it *)

Class Floats (F : Type) : Type := {
  of_int : Z -> F;
  fadd : F -> F -> F;
  fmul : F -> F -> F;
  math_cos : F -> F;
  math_sin : F -> F;
  math_radians : F -> F
}.

(** The ideal instance: real numbers. *)
#[global] Instance Floats_R : Floats R := {|
  of_int := IZR;
  fadd := Rplus;
  fmul := Rmult;
  math_cos := cos;
  math_sin := sin;
  math_radians := fun x => (x * (PI / 180))%R
|}.

(** The free instance: the expression a float was computed by. *)
Inductive Sym : Type :=
| SInt (z : Z)
| SAdd (a b : Sym)
| SMul (a b : Sym)
| SCos (a : Sym)
| SSin (a : Sym)
| SRadians (a : Sym).

#[global] Instance Floats_Sym : Floats Sym := {|
  of_int := SInt;
  fadd := SAdd;
  fmul := SMul;
  math_cos := SCos;
  math_sin := SSin;
  math_radians := SRadians
|}.

(** The real number a symbolic float stands for. *)
Fixpoint Rval (e : Sym) : R :=
  match e with
  | SInt z => IZR z
  | SAdd a b => (Rval a + Rval b)%R
  | SMul a b => (Rval a * Rval b)%R
  | SCos a => cos (Rval a)
  | SSin a => sin (Rval a)
  | SRadians a => (Rval a * (PI / 180))%R
  end.

(** How a call ends: with a value, or with an exception. *)
Inductive Outcome (A : Type) : Type :=
| Returns (a : A)
| Raised.
Arguments Returns {A} a.
Arguments Raised {A}.

(** ** Library calls *)

Section Program.

Context {F : Type} `{Floats F}.

(** One constructor per Pillow (or builtin) call the script makes, with
    the arguments it passes.  Images are named by their heap index. *)
Inductive Call : Type :=
| Image_new_call (mode : string) (size : Z * Z) (color : Color)
| ImageDraw_Draw_call (im : nat)
| ellipse_call (d : ImageDraw) (xy : BBox) (fill outline : option Color) (width : Z)
| truetype_call (path : string) (size : Z)
| load_default_call
| textbbox_call (d : ImageDraw) (xy : Z * Z) (text : string) (font : Font)
| text_call (d : ImageDraw) (xy : Z * Z) (text : string) (font : Font) (fill : Color)
| rotate_call (im : nat) (angle : Z) (expand : bool)
| paste_call (im : nat) (src : nat) (box : Z * Z) (mask : nat)
| polygon_call (d : ImageDraw) (xy : list (F * F)) (fill : Color)
| save_call (im : nat) (fp : string) (format : string)
| print_call (s : string).

Definition is_font_load (c : Call) : bool :=
  match c with
  | truetype_call _ _ | load_default_call => true
  | _ => false
  end.

Definition is_text_op (c : Call) : bool :=
  match c with
  | textbbox_call _ _ _ _ | text_call _ _ _ _ _ => true
  | _ => false
  end.

Definition is_rotate (c : Call) : bool :=
  match c with
  | rotate_call _ _ _ => true
  | _ => false
  end.

Definition is_paste (c : Call) : bool :=
  match c with
  | paste_call _ _ _ _ => true
  | _ => false
  end.

Definition is_ellipse (c : Call) : bool :=
  match c with
  | ellipse_call _ _ _ _ _ => true
  | _ => false
  end.

Definition is_polygon (c : Call) : bool :=
  match c with
  | polygon_call _ _ _ => true
  | _ => false
  end.

(** ** The rasteriser

    What Pillow computes from a call's arguments.  Only the facts about
    ellipses that the background needs are required of it. *)

Definition inset (b : BBox) (w : Z) : BBox :=
  let '(x0, y0, x1, y1) := b in (x0 + w, y0 + w, x1 - w, y1 - w).

Class Raster : Type := {
  (** bounding box of [text] drawn at [xy] in [font] *)
  textbbox_of : Z * Z -> string -> Font -> BBox;
  (** glyph coverage (0..255) of [text] in [font] at an offset from the anchor *)
  text_mask : string -> Font -> Z -> Z -> Z;
  (** [blend old new m]: the pixel where coverage [m] of [new] lands on [old] *)
  blend : Color -> Color -> Z -> Color;
  (** pixels of the filled ellipse inscribed in a box *)
  in_ellipse : BBox -> Z -> Z -> bool;
  (** pixels of its outline of a given width *)
  on_outline : BBox -> Z -> Z -> Z -> bool;
  (** pixels of a filled polygon *)
  in_polygon : list (F * F) -> Z -> Z -> bool;
  (** [Image.rotate(angle, expand)] *)
  rotate_image : Image -> Z -> bool -> Image;

  in_ellipse_box : forall x0 y0 x1 y1 x y,
    in_ellipse (x0, y0, x1, y1) x y = true -> x0 <= x <= x1 /\ y0 <= y <= y1;
  in_ellipse_center : forall cx cy a b,
    0 <= a -> 0 <= b -> in_ellipse (cx - a, cy - b, cx + a, cy + b) cx cy = true;
  on_outline_band : forall b w x y,
    on_outline b w x y = true -> in_ellipse (inset b w) x y = false
}.

Context {Rst : Raster}.

(** [Image.new(mode, size, color)] *)
Definition new_image (mode : string) (size : Z * Z) (color : Color) : Image :=
  {| im_mode := mode; im_size := size; getpixel := fun _ _ => color |}.

Definition set_pixels (im : Image) (f : Z -> Z -> Color -> Color) : Image :=
  {| im_mode := im_mode im; im_size := im_size im;
     getpixel := fun x y => f x y (getpixel im x y) |}.

(** [ImageDraw.ellipse]: the fill pass, then the outline pass when an
    outline ink is given, differs from the fill and the width is not 0.
    With neither ink given Pillow outlines in its default ink. *)
Definition default_ink : Color := (255, 255, 255, 255).

Definition Color_eqb (a b : Color) : bool :=
  (item0 a =? item0 b) && (item1 a =? item1 b) &&
  (item2 a =? item2 b) && (item3 a =? item3 b).

Definition ellipse_pixels (xy : BBox) (fill outline : option Color) (width : Z)
    (im : Image) : Image :=
  let ink := match outline, fill with
             | None, None => Some default_ink
             | _, _ => outline
             end in
  set_pixels im (fun x y old =>
    let filled := match fill with
                  | Some c => if in_ellipse xy x y then c else old
                  | None => old
                  end in
    match ink with
    | Some c =>
        if negb (match fill with Some c' => Color_eqb c c' | None => false end)
           && negb (width =? 0) && on_outline xy width x y
        then c else filled
    | None => filled
    end).

(** [ImageDraw.text]: the ink lands where the glyphs have coverage. *)
Definition text_pixels (xy : Z * Z) (text : string) (font : Font) (fill : Color)
    (im : Image) : Image :=
  set_pixels im (fun x y old =>
    let m := text_mask text font (x - fst xy) (y - snd xy) in
    if m =? 0 then old else blend old fill m).

(** [ImageDraw.polygon] with a fill. *)
Definition polygon_pixels (xy : list (F * F)) (fill : Color) (im : Image) : Image :=
  set_pixels im (fun x y old => if in_polygon xy x y then fill else old).

(** [Image.paste(src, box, mask)]: inside the box, where the mask's alpha
    band is 0 the pixel is kept, elsewhere the source is blended in. *)
Definition in_box (box : Z * Z) (size : Z * Z) (x y : Z) : bool :=
  (fst box <=? x) && (x <? fst box + fst size) &&
  (snd box <=? y) && (y <? snd box + snd size).

Definition paste_covers (box : Z * Z) (mask : Image) (x y : Z) : bool :=
  in_box box (im_size mask) x y &&
  negb (alpha (getpixel mask (x - fst box) (y - snd box)) =? 0).

Definition paste_pixels (src : Image) (box : Z * Z) (mask : Image) (im : Image) : Image :=
  set_pixels im (fun x y old =>
    if paste_covers box mask x y
    then blend old (getpixel src (x - fst box) (y - snd box))
               (alpha (getpixel mask (x - fst box) (y - snd box)))
    else old).

(** ** The world and the monad *)

Record World : Type := mkWorld {
  heap : list Image;
  fs : gmap string File;
  stdout : list string;
  trace : list Call
}.

Definition M (A : Type) : Type := World -> Outcome A * World.

#[global] Instance M_ret : MRet M := fun A a w => (Returns a, w).
#[global] Instance M_bind : MBind M := fun A B k m w =>
  match m w with
  | (Returns a, w') => k a w'
  | (Raised, w') => (Raised, w')
  end.

(** [try: body except: handler] with a bare [except]: every exception of
    the body is caught, the state it left behind is kept. *)
Definition try_except {A : Type} (body handler : M A) : M A := fun w =>
  match body w with
  | (Returns a, w') => (Returns a, w')
  | (Raised, w') => handler w'
  end.

(** Which calls raise on this machine. *)
Variable raises : Call -> bool.

Definition log (c : Call) (w : World) : World :=
  {| heap := heap w; fs := fs w; stdout := stdout w; trace := trace w ++ [c] |}.

(** A call is recorded, then it raises or goes through. *)
Definition call (c : Call) : M unit := fun w =>
  if raises c then (Raised, log c w) else (Returns tt, log c w).

Definition alloc (im : Image) : M nat := fun w =>
  (Returns (length (heap w)),
   {| heap := heap w ++ [im]; fs := fs w; stdout := stdout w; trace := trace w |}).

Definition read_image (r : nat) : M Image := fun w =>
  match heap w !! r with
  | Some im => (Returns im, w)
  | None => (Raised, w)
  end.

Definition modify_image (r : nat) (f : Image -> Image) : M unit := fun w =>
  match heap w !! r with
  | Some im =>
      (Returns tt,
       {| heap := <[r := f im]> (heap w); fs := fs w; stdout := stdout w;
          trace := trace w |})
  | None => (Raised, w)
  end.

Definition write_file (fp : string) (f : File) : M unit := fun w =>
  (Returns tt,
   {| heap := heap w; fs := <[fp := f]> (fs w); stdout := stdout w;
      trace := trace w |}).

Definition write_stdout (s : string) : M unit := fun w =>
  (Returns tt,
   {| heap := heap w; fs := fs w; stdout := stdout w ++ [s]; trace := trace w |}).

(** ** The Pillow calls of the script *)

Definition Image_new (mode : string) (size : Z * Z) (color : Color) : M nat :=
  call (Image_new_call mode size color);;
  alloc (new_image mode size color).

Definition ImageDraw_Draw (im : nat) : M ImageDraw :=
  call (ImageDraw_Draw_call im);;
  mret (Draw im).

Definition draw_ellipse (d : ImageDraw) (xy : BBox) (fill outline : option Color)
    (width : Z) : M unit :=
  call (ellipse_call d xy fill outline width);;
  modify_image (draw_im d) (ellipse_pixels xy fill outline width).

Definition ImageFont_truetype (path : string) (size : Z) : M Font :=
  call (truetype_call path size);;
  mret (TrueTypeFont path size).

(** The built-in font is part of the library: loading it does not raise. *)
Definition ImageFont_load_default : M Font := fun w =>
  (Returns DefaultFont, log load_default_call w).

Definition draw_textbbox (d : ImageDraw) (xy : Z * Z) (text : string) (font : Font)
    : M BBox :=
  call (textbbox_call d xy text font);;
  mret (textbbox_of xy text font).

Definition draw_text (d : ImageDraw) (xy : Z * Z) (text : string) (font : Font)
    (fill : Color) : M unit :=
  call (text_call d xy text font fill);;
  modify_image (draw_im d) (text_pixels xy text font fill).

Definition Image_rotate (im : nat) (angle : Z) (expand : bool) : M nat :=
  call (rotate_call im angle expand);;
  src ← read_image im;
  alloc (rotate_image src angle expand).

Definition Image_paste (im : nat) (src : nat) (box : Z * Z) (mask : nat) : M unit :=
  call (paste_call im src box mask);;
  s ← read_image src;
  m ← read_image mask;
  modify_image im (paste_pixels s box m).

Definition draw_polygon (d : ImageDraw) (xy : list (F * F)) (fill : Color) : M unit :=
  call (polygon_call d xy fill);;
  modify_image (draw_im d) (polygon_pixels xy fill).

Definition Image_save (im : nat) (fp : string) (format : string) : M unit :=
  call (save_call im fp format);;
  i ← read_image im;
  write_file fp (Encoded format i).

Definition print (s : string) : M unit :=
  call (print_call s);;
  write_stdout s.

(** [for x in l: body] *)
Fixpoint for_each {A : Type} (l : list A) (body : A -> M unit) : M unit :=
  match l with
  | [] => mret tt
  | x :: l' => body x;; for_each l' body
  end.

(** [range(n)] *)
Definition range (n : nat) : list Z := map Z.of_nat (seq 0 n).

#[local] Infix "+." := fadd (at level 50, left associativity).
#[local] Infix "*." := fmul (at level 40, left associativity).

(** ** generate_icon *)

(** The inner loop [for i in range(10)] of the star drawing: the list
    [points] it has built when it ends. *)
Definition star_points (pos : Z * Z) : list (F * F) :=
  let star_size := 20 in
  fold_left (fun points i =>
    let angle := i * 36 in
    let r := if i mod 2 =? 0 then star_size else star_size / 2 in
    let x := of_int (fst pos) +. of_int r *. math_cos (math_radians (of_int (angle - 90))) in
    let y := of_int (snd pos) +. of_int r *. math_sin (math_radians (of_int (angle - 90))) in
    points ++ [(x, y)]) (range 10) [].

Definition sparkle_positions : list (Z * Z) :=
  [(180, 200); (844, 180); (160, 780); (860, 820)].

Definition heart_positions : list (Z * Z) := [(240, 340); (780, 680)].

(** The [try] / [except] / [try] / [except] statement that binds
    [font_large] and [font_emoji]. *)
Definition load_fonts : M (Font * Font) :=
  try_except
    (font_large ← ImageFont_truetype "arial.ttf" 140;
     font_emoji ← ImageFont_truetype "arial.ttf" 40;
     mret (font_large, font_emoji))
    (try_except
       (font_large ← ImageFont_truetype "C:/Windows/Fonts/arial.ttf" 140;
        font_emoji ← ImageFont_truetype "C:/Windows/Fonts/arial.ttf" 40;
        mret (font_large, font_emoji))
       (font_large ← ImageFont_load_default;
        font_emoji ← ImageFont_load_default;
        mret (font_large, font_emoji))).

Definition generate_icon : M string :=
  let size := (1024, 1024) in
  img ← Image_new "RGBA" size (248, 249, 250, 255);
  draw ← ImageDraw_Draw img;
  let center := (512, 512) in
  let radius := 480 in
  let circle_bbox := (fst center - radius, snd center - radius,
                      fst center + radius, snd center + radius) in
  draw_ellipse draw circle_bbox (Some (248, 249, 250, 255))
               (Some (222, 226, 230, 255)) 8;;
  '(font_large, font_emoji) ← load_fonts;
  let hello_text := "Hello" in
  let hello_color := (255, 59, 48, 255) in
  hello_bbox ← draw_textbbox draw (0, 0) hello_text font_large;
  let hello_width := item2 hello_bbox - item0 hello_bbox in
  let hello_height := item3 hello_bbox - item1 hello_bbox in
  let hello_x := fst center - hello_width / 2 in
  let hello_y := 350 in
  hello_img ← Image_new "RGBA" (hello_width + 100, hello_height + 50) (0, 0, 0, 0);
  hello_draw ← ImageDraw_Draw hello_img;
  draw_text hello_draw (50, 25) hello_text font_large hello_color;;
  hello_rotated ← Image_rotate hello_img (-8) true;
  Image_paste img hello_rotated (hello_x - 50, hello_y - 25) hello_rotated;;
  let world_text := "World" in
  let world_color := (0, 122, 255, 255) in
  world_bbox ← draw_textbbox draw (0, 0) world_text font_large;
  let world_width := item2 world_bbox - item0 world_bbox in
  let world_height := item3 world_bbox - item1 world_bbox in
  let world_x := fst center - world_width / 2 in
  let world_y := 520 in
  world_img ← Image_new "RGBA" (world_width + 100, world_height + 50) (0, 0, 0, 0);
  world_draw ← ImageDraw_Draw world_img;
  draw_text world_draw (50, 25) world_text font_large world_color;;
  world_rotated ← Image_rotate world_img 5 true;
  Image_paste img world_rotated (world_x - 50, world_y - 25) world_rotated;;
  let star_color := (255, 215, 0, 200) in
  let heart_color := (255, 105, 180, 150) in
  for_each sparkle_positions (fun pos =>
    let points := star_points pos in
    draw_polygon draw points star_color);;
  for_each heart_positions (fun pos =>
    draw_ellipse draw (fst pos - 15, snd pos - 15, fst pos + 15, snd pos + 15)
                 (Some heart_color) None 1);;
  let output_path := "icon.png" in
  Image_save img output_path "PNG";;
  print ("Icon generated successfully as " ++ output_path)%string;;
  mret output_path.

(** The process starts with no image allocated and nothing printed. *)
Definition initial_world (fs0 : gmap string File) : World :=
  {| heap := []; fs := fs0; stdout := []; trace := [] |}.

(** ** The same routine with the [font_emoji] lines deleted

    Written out to compare [generate_icon] with a run that never loads
    the 40pt font: the two assignments to [font_emoji] of each tier are
    gone, everything else is as above. *)

Definition load_font_large : M Font :=
  try_except
    (ImageFont_truetype "arial.ttf" 140)
    (try_except
       (ImageFont_truetype "C:/Windows/Fonts/arial.ttf" 140)
       ImageFont_load_default).

Definition generate_icon_without_font_emoji : M string :=
  let size := (1024, 1024) in
  img ← Image_new "RGBA" size (248, 249, 250, 255);
  draw ← ImageDraw_Draw img;
  let center := (512, 512) in
  let radius := 480 in
  let circle_bbox := (fst center - radius, snd center - radius,
                      fst center + radius, snd center + radius) in
  draw_ellipse draw circle_bbox (Some (248, 249, 250, 255))
               (Some (222, 226, 230, 255)) 8;;
  font_large ← load_font_large;
  let hello_text := "Hello" in
  let hello_color := (255, 59, 48, 255) in
  hello_bbox ← draw_textbbox draw (0, 0) hello_text font_large;
  let hello_width := item2 hello_bbox - item0 hello_bbox in
  let hello_height := item3 hello_bbox - item1 hello_bbox in
  let hello_x := fst center - hello_width / 2 in
  let hello_y := 350 in
  hello_img ← Image_new "RGBA" (hello_width + 100, hello_height + 50) (0, 0, 0, 0);
  hello_draw ← ImageDraw_Draw hello_img;
  draw_text hello_draw (50, 25) hello_text font_large hello_color;;
  hello_rotated ← Image_rotate hello_img (-8) true;
  Image_paste img hello_rotated (hello_x - 50, hello_y - 25) hello_rotated;;
  let world_text := "World" in
  let world_color := (0, 122, 255, 255) in
  world_bbox ← draw_textbbox draw (0, 0) world_text font_large;
  let world_width := item2 world_bbox - item0 world_bbox in
  let world_height := item3 world_bbox - item1 world_bbox in
  let world_x := fst center - world_width / 2 in
  let world_y := 520 in
  world_img ← Image_new "RGBA" (world_width + 100, world_height + 50) (0, 0, 0, 0);
  world_draw ← ImageDraw_Draw world_img;
  draw_text world_draw (50, 25) world_text font_large world_color;;
  world_rotated ← Image_rotate world_img 5 true;
  Image_paste img world_rotated (world_x - 50, world_y - 25) world_rotated;;
  let star_color := (255, 215, 0, 200) in
  let heart_color := (255, 105, 180, 150) in
  for_each sparkle_positions (fun pos =>
    let points := star_points pos in
    draw_polygon draw points star_color);;
  for_each heart_positions (fun pos =>
    draw_ellipse draw (fst pos - 15, snd pos - 15, fst pos + 15, snd pos + 15)
                 (Some heart_color) None 1);;
  let output_path := "icon.png" in
  Image_save img output_path "PNG";;
  print ("Icon generated successfully as " ++ output_path)%string;;
  mret output_path.

(** ** Vocabulary of the statements *)

(** No drawing or file operation faults: the only calls that may raise
    are the font loads. *)
Definition no_fault : Prop :=
  forall c, is_font_load c = false -> raises c = false.

(** A tier that loads [path] goes through when neither load raises. *)
Definition tier_ok (path : string) : bool :=
  negb (raises (truetype_call path 140)) && negb (raises (truetype_call path 40)).

(** The loads a tier attempts: the 40pt load only after the 140pt one. *)
Definition tier_attempts (path : string) : list Call :=
  truetype_call path 140 ::
  (if raises (truetype_call path 140) then [] else [truetype_call path 40]).

(** The handle the chain ends with, for the load at [size]. *)
Definition resolved_font (size : Z) : Font :=
  if tier_ok "arial.ttf" then TrueTypeFont "arial.ttf" size
  else if tier_ok "C:/Windows/Fonts/arial.ttf"
       then TrueTypeFont "C:/Windows/Fonts/arial.ttf" size
       else DefaultFont.

Definition font_trace : list Call :=
  tier_attempts "arial.ttf" ++
  (if tier_ok "arial.ttf" then []
   else tier_attempts "C:/Windows/Fonts/arial.ttf" ++
        (if tier_ok "C:/Windows/Fonts/arial.ttf" then []
         else [load_default_call; load_default_call])).

(** Width and height of a label as [textbbox] measures them at (0, 0). *)
Definition label_width (text : string) (font : Font) : Z :=
  item2 (textbbox_of (0, 0) text font) - item0 (textbbox_of (0, 0) text font).

Definition label_height (text : string) (font : Font) : Z :=
  item3 (textbbox_of (0, 0) text font) - item1 (textbbox_of (0, 0) text font).

(** [l] occurs in [tr] as a run of consecutive calls. *)
Definition segment (l tr : list Call) : Prop :=
  exists pre post, tr = pre ++ l ++ post.

(** Two worlds with the same images, files and console. *)
Definition same_output (w w' : World) : Prop :=
  heap w = heap w' /\ fs w = fs w' /\ stdout w = stdout w'.

(** Two computations agree when, started in worlds with the same images,
    files and console, they end the same way, with related results and
    again the same images, files and console.  Traces are left out: the
    program only ever appends to them. *)
Definition sim {A A' : Type} (R : A -> A' -> Prop) (m : M A) (m' : M A') : Prop :=
  forall w w', same_output w w' ->
    match m w, m' w' with
    | (Returns a, v), (Returns a', v') => R a a' /\ same_output v v'
    | (Raised, v), (Raised, v') => same_output v v'
    | _, _ => False
    end.

(** ** The world a fault-free run ends in *)

Section FaultFree.

Variable font : Font.

Definition hello_layer : Image :=
  text_pixels (50, 25) "Hello" font (255, 59, 48, 255)
    (new_image "RGBA" (label_width "Hello" font + 100, label_height "Hello" font + 50)
       (0, 0, 0, 0)).

Definition world_layer : Image :=
  text_pixels (50, 25) "World" font (0, 122, 255, 255)
    (new_image "RGBA" (label_width "World" font + 100, label_height "World" font + 50)
       (0, 0, 0, 0)).

Definition hello_rotated : Image := rotate_image hello_layer (-8) true.
Definition world_rotated : Image := rotate_image world_layer 5 true.

Definition background : Image :=
  ellipse_pixels (32, 32, 992, 992) (Some (248, 249, 250, 255))
    (Some (222, 226, 230, 255)) 8
    (new_image "RGBA" (1024, 1024) (248, 249, 250, 255)).

Definition canvas_labels : Image :=
  paste_pixels world_rotated (512 - label_width "World" font / 2 - 50, 495) world_rotated
    (paste_pixels hello_rotated (512 - label_width "Hello" font / 2 - 50, 325)
       hello_rotated background).

Definition canvas_stars : Image :=
  fold_left (fun im pos => polygon_pixels (star_points pos) (255, 215, 0, 200) im)
    sparkle_positions canvas_labels.

Definition heart_bbox (pos : Z * Z) : BBox :=
  (fst pos - 15, snd pos - 15, fst pos + 15, snd pos + 15).

Definition final_canvas : Image :=
  fold_left (fun im pos => ellipse_pixels (heart_bbox pos) (Some (255, 105, 180, 150)) None 1 im)
    heart_positions canvas_stars.

Definition label_trace (layer rotated : nat) (text : string) (color : Color)
    (angle y : Z) : list Call :=
  [textbbox_call (Draw 0) (0, 0) text font;
   Image_new_call "RGBA" (label_width text font + 100, label_height text font + 50)
     (0, 0, 0, 0);
   ImageDraw_Draw_call layer;
   text_call (Draw layer) (50, 25) text font color;
   rotate_call layer angle true;
   paste_call 0 rotated (512 - label_width text font / 2 - 50, y - 25) rotated].

Definition final_trace : list Call :=
  [Image_new_call "RGBA" (1024, 1024) (248, 249, 250, 255);
   ImageDraw_Draw_call 0;
   ellipse_call (Draw 0) (32, 32, 992, 992) (Some (248, 249, 250, 255))
     (Some (222, 226, 230, 255)) 8] ++
  font_trace ++
  label_trace 1 2 "Hello" (255, 59, 48, 255) (-8) 350 ++
  label_trace 3 4 "World" (0, 122, 255, 255) 5 520 ++
  map (fun pos => polygon_call (Draw 0) (star_points pos) (255, 215, 0, 200))
    sparkle_positions ++
  map (fun pos => ellipse_call (Draw 0) (heart_bbox pos) (Some (255, 105, 180, 150)) None 1)
    heart_positions ++
  [save_call 0 "icon.png" "PNG";
   print_call "Icon generated successfully as icon.png"].

Definition final_world (fs0 : gmap string File) : World :=
  {| heap := [final_canvas; hello_layer; hello_rotated; world_layer; world_rotated];
     fs := <["icon.png" := Encoded "PNG" final_canvas]> fs0;
     stdout := ["Icon generated successfully as icon.png"];
     trace := final_trace |}.

End FaultFree.

End Program.

Arguments Call F : clear implicits.
Arguments Raster F : clear implicits.
Arguments World F : clear implicits.
Arguments M F A : clear implicits.

(** ** A concrete rasteriser

    Enough of a rasteriser to run the program: exact ellipses, glyphs as
    solid boxes half as wide as the font size, polygons as the box that
    encloses their vertices, and a rotation that leaves the layer as it
    is.  It comes for symbolic floats, where [enclose] bounds a float by
    integers, and for real numbers. *)

Module Flat.

Definition font_size (font : Font) : Z :=
  match font with
  | TrueTypeFont _ size => size
  | DefaultFont => 10
  end.

Definition text_width (text : string) (font : Font) : Z :=
  Z.of_nat (String.length text) * (font_size font / 2).

Definition textbbox_of (xy : Z * Z) (text : string) (font : Font) : BBox :=
  (fst xy, snd xy, fst xy + text_width text font, snd xy + font_size font).

Definition text_mask (text : string) (font : Font) (dx dy : Z) : Z :=
  if (0 <=? dx) && (dx <? text_width text font) && (0 <=? dy) && (dy <? font_size font)
  then 255 else 0.

Definition mix (o n m : Z) : Z := (o * (255 - m) + n * m) / 255.

Definition blend (old new : Color) (m : Z) : Color :=
  (mix (item0 old) (item0 new) m, mix (item1 old) (item1 new) m,
   mix (item2 old) (item2 new) m, mix (item3 old) (item3 new) m).

(** (2x - (x0+x1))² (y1-y0)² + (2y - (y0+y1))² (x1-x0)² ≤ (x1-x0)² (y1-y0)² *)
Definition in_ellipse (b : BBox) (x y : Z) : bool :=
  let '(x0, y0, x1, y1) := b in
  (x0 <=? x) && (x <=? x1) && (y0 <=? y) && (y <=? y1) &&
  ((2 * x - (x0 + x1)) ^ 2 * (y1 - y0) ^ 2 + (2 * y - (y0 + y1)) ^ 2 * (x1 - x0) ^ 2
   <=? (x1 - x0) ^ 2 * (y1 - y0) ^ 2).

Definition on_outline (b : BBox) (w x y : Z) : bool :=
  in_ellipse b x y && negb (in_ellipse (inset b w) x y).

(** An integer interval that contains the value of a symbolic float. *)
Fixpoint enclose (e : Sym) : Z * Z :=
  match e with
  | SInt z => (z, z)
  | SAdd a b => (fst (enclose a) + fst (enclose b), snd (enclose a) + snd (enclose b))
  | SMul a b =>
      let '(la, ha) := enclose a in
      let '(lb, hb) := enclose b in
      (Z.min (Z.min (la * lb) (la * hb)) (Z.min (ha * lb) (ha * hb)),
       Z.max (Z.max (la * lb) (la * hb)) (Z.max (ha * lb) (ha * hb)))
  | SCos _ | SSin _ => (-1, 1)
  | SRadians a =>
      let '(la, ha) := enclose a in (Z.min 0 (la * 4), Z.max 0 (ha * 4))
  end.

Definition in_polygon (xy : list (Sym * Sym)) (x y : Z) : bool :=
  match xy with
  | [] => false
  | _ =>
      existsb (fun p => fst (enclose (fst p)) <=? x) xy &&
      existsb (fun p => x <=? snd (enclose (fst p))) xy &&
      existsb (fun p => fst (enclose (snd p)) <=? y) xy &&
      existsb (fun p => y <=? snd (enclose (snd p))) xy
  end.

Definition rotate_image (im : Image) (angle : Z) (expand : bool) : Image := im.

(** Over the reals: the box spanned by the vertices. *)
Definition Rleb (a b : R) : bool := if Rle_dec a b then true else false.

Definition in_polygon_R (xy : list (R * R)) (x y : Z) : bool :=
  existsb (fun p => Rleb (fst p) (IZR x)) xy &&
  existsb (fun p => Rleb (IZR x) (fst p)) xy &&
  existsb (fun p => Rleb (snd p) (IZR y)) xy &&
  existsb (fun p => Rleb (IZR y) (snd p)) xy.

Lemma flat_in_ellipse_box x0 y0 x1 y1 x y :
  in_ellipse (x0, y0, x1, y1) x y = true -> x0 <= x <= x1 /\ y0 <= y <= y1.
Proof.
  unfold in_ellipse. intros E.
  repeat (apply andb_prop in E; destruct E as [E ?]).
  lia.
Qed.

Lemma flat_in_ellipse_center cx cy a b :
  0 <= a -> 0 <= b -> in_ellipse (cx - a, cy - b, cx + a, cy + b) cx cy = true.
Proof.
  intros Ha Hb. unfold in_ellipse.
  replace (2 * cx - (cx - a + (cx + a))) with 0 by lia.
  replace (2 * cy - (cy - b + (cy + b))) with 0 by lia.
  repeat (apply andb_true_intro; split); apply Z.leb_le; lia.
Qed.

Lemma flat_on_outline_band b w x y :
  on_outline b w x y = true -> in_ellipse (inset b w) x y = false.
Proof.
  unfold on_outline. intros E. apply andb_prop in E. destruct E as [_ E].
  now apply negb_true_iff in E.
Qed.

End Flat.

Definition flat_raster : Raster Sym := {|
  textbbox_of := Flat.textbbox_of;
  text_mask := Flat.text_mask;
  blend := Flat.blend;
  in_ellipse := Flat.in_ellipse;
  on_outline := Flat.on_outline;
  in_polygon := Flat.in_polygon;
  rotate_image := Flat.rotate_image;
  in_ellipse_box := Flat.flat_in_ellipse_box;
  in_ellipse_center := Flat.flat_in_ellipse_center;
  on_outline_band := Flat.flat_on_outline_band
|}.

Definition flat_raster_R : Raster R := {|
  textbbox_of := Flat.textbbox_of;
  text_mask := Flat.text_mask;
  blend := Flat.blend;
  in_ellipse := Flat.in_ellipse;
  on_outline := Flat.on_outline;
  in_polygon := Flat.in_polygon_R;
  rotate_image := Flat.rotate_image;
  in_ellipse_box := Flat.flat_in_ellipse_box;
  in_ellipse_center := Flat.flat_in_ellipse_center;
  on_outline_band := Flat.flat_on_outline_band
|}.

(** Machines: every font installed, no TrueType font at all, and one on
    which the 40pt loads fail. *)
Definition all_fonts {F : Type} (c : Call F) : bool := false.

Definition no_truetype {F : Type} (c : Call F) : bool :=
  match c with
  | truetype_call _ _ => true
  | _ => false
  end.

Definition no_40pt {F : Type} (c : Call F) : bool :=
  match c with
  | truetype_call _ 40 => true
  | _ => false
  end.

(** A machine on which the working directory cannot be written. *)
Definition unwritable {F : Type} (c : Call F) : bool :=
  match c with
  | save_call _ _ _ => true
  | _ => false
  end.

(** ** Runs on any machine *)

Section AnyMachine.

Context {F : Type} `{Floats F} {Rst : Raster F}.
Variable raises : Call F -> bool.

(** A call that raises outside the font chain: no handler catches it. *)
Definition faults (c : Call F) : bool := negb (is_font_load c) && raises c.

(** The calls of [l] up to and including the first one that faults. *)
Fixpoint until_fault (l : list (Call F)) : list (Call F) :=
  match l with
  | [] => []
  | c :: l' => c :: (if faults c then [] else until_fault l')
  end.

Definition is_print (c : Call F) : bool :=
  match c with
  | print_call _ => true
  | _ => false
  end.

(** A call that does not keep the file from being written: it goes
    through, or it is the [print] that comes after the [save]. *)
Definition harmless (c : Call F) : bool := is_print c || negb (faults c).

(** What a run that made the calls [made] has left behind. *)
Definition behaves (fs0 : gmap string File) (made : list (Call F))
    (failed all_harmless : bool) (r : Outcome string * World F) : Prop :=
  trace (snd r) = made /\
  fst r = (if failed then Raised else Returns "icon.png") /\
  stdout (snd r) =
    (if failed then [] else ["Icon generated successfully as icon.png"]) /\
  fs (snd r) =
    (if all_harmless
     then <["icon.png" := Encoded "PNG" (final_canvas (resolved_font raises 140))]> fs0
     else fs0) /\
  (forall c, heap (snd r) !! 0%nat = Some c ->
             im_mode c = "RGBA" /\ im_size c = (1024, 1024)).

(** The script: [if __name__ == "__main__": generate_icon()], the
    returned path is dropped. *)
Definition main : M F unit :=
  generate_icon raises;;
  mret tt.

End AnyMachine.

(** A machine whose console is closed. *)
Definition no_console {F : Type} (c : Call F) : bool :=
  match c with
  | print_call _ => true
  | _ => false
  end.

Create HintDb sim discriminated.

(** * Properties *)

(** ** Finding calls in a trace *)

Section Traces.

Context {F : Type}.

Lemma segment_prefix (l post tr : list (Call F)) :
  tr = l ++ post -> segment l tr.
Proof. intros ->. exists [], post. reflexivity. Qed.

Lemma segment_cons (l tr : list (Call F)) (c : Call F) :
  segment l tr -> segment l (c :: tr).
Proof. intros (pre & post & ->). exists (c :: pre), post. reflexivity. Qed.

Lemma segment_app_r (l tr1 tr2 : list (Call F)) :
  segment l tr2 -> segment l (tr1 ++ tr2).
Proof.
  intros (pre & post & ->). exists (tr1 ++ pre), post.
  now rewrite <- app_assoc.
Qed.

End Traces.

Ltac find_segment :=
  solve [ eapply segment_prefix; reflexivity
        | apply segment_cons; find_segment
        | apply segment_app_r; find_segment ].

Ltac find_call :=
  cbn [app map];
  repeat first [ apply list_elem_of_here
               | apply list_elem_of_further
               | apply elem_of_app; right; cbn [app map] ].

(** ** Fault-free runs *)

Section Run.

Context {F : Type} `{Floats F} {Rst : Raster F}.
Variable raises : Call F -> bool.

#[local] Arguments ellipse_pixels : simpl never.
#[local] Arguments text_pixels : simpl never.
#[local] Arguments polygon_pixels : simpl never.
#[local] Arguments paste_pixels : simpl never.
#[local] Arguments new_image : simpl never.
#[local] Arguments star_points : simpl never.

(** ** Running the monad one step at a time *)

Lemma run_bind {A B : Type} (m : M F A) (k : A -> M F B) (w : World F) :
  (m ≫= k) w = match m w with
               | (Returns a, w') => k a w'
               | (Raised, w') => (Raised, w')
               end.
Proof. reflexivity. Qed.

Lemma call_ok (c : Call F) (w : World F) :
  raises c = false -> call raises c w = (Returns tt, log c w).
Proof. intros E. unfold call. now rewrite E. Qed.

(** The chain never raises, leaves images, files and console alone, and
    ends with the handles of the first tier that went through. *)
Lemma load_fonts_run (w : World F) :
  load_fonts raises w =
  (Returns (resolved_font raises 140, resolved_font raises 40),
   {| heap := heap w; fs := fs w; stdout := stdout w;
      trace := trace w ++ font_trace raises |}).
Proof.
  unfold load_fonts, try_except, ImageFont_truetype, ImageFont_load_default,
    resolved_font, font_trace, tier_ok, tier_attempts, mbind, M_bind, mret,
    M_ret, call, log.
  destruct (raises (truetype_call "arial.ttf" 140));
    destruct (raises (truetype_call "arial.ttf" 40));
    destruct (raises (truetype_call "C:/Windows/Fonts/arial.ttf" 140));
    destruct (raises (truetype_call "C:/Windows/Fonts/arial.ttf" 40));
    cbn; rewrite <- ?app_assoc; reflexivity.
Qed.

Ltac run_steps Hnf :=
  repeat (first [ rewrite run_bind
                | rewrite load_fonts_run
                | rewrite call_ok by (apply Hnf; reflexivity) ];
          cbn -[font_trace resolved_font load_fonts]).

(** A run in which only font loads may raise goes through every call of
    the routine and ends in [final_world]. *)
Lemma generate_icon_run (fs0 : gmap string File) :
  no_fault raises ->
  generate_icon raises (initial_world fs0) =
  (Returns "icon.png", final_world raises (resolved_font raises 140) fs0).
Proof.
  intros Hnf.
  unfold generate_icon, initial_world, Image_new, ImageDraw_Draw, draw_ellipse,
    draw_textbbox, draw_text, Image_rotate, Image_paste, draw_polygon,
    Image_save, print.
  run_steps Hnf.
  unfold mret, M_ret, final_world. do 2 f_equal.
  unfold final_trace. cbn -[font_trace resolved_font].
  do 3 f_equal. rewrite <- !app_assoc. reflexivity.
Qed.

(** Every call of the chain is a font load, so a filter that rejects
    font loads rejects the whole chain. *)
Lemma filter_font_trace (p : Call F -> bool) :
  (forall c, is_font_load c = true -> p c = false) ->
  filter p (font_trace raises) = [].
Proof.
  intros Hp. unfold font_trace, tier_attempts.
  repeat match goal with |- context [if ?b then _ else _] => destruct b end;
    cbn [app]; repeat (rewrite filter_cons_False by (rewrite Hp; auto));
    reflexivity.
Qed.

Lemma final_trace_polygons (font : Font) :
  filter is_polygon (final_trace raises font) =
  map (fun pos => polygon_call (Draw 0) (star_points pos) (255, 215, 0, 200))
    sparkle_positions.
Proof.
  unfold final_trace, label_trace. rewrite !filter_app.
  rewrite filter_font_trace by (now intros []). reflexivity.
Qed.

Lemma final_trace_ellipses (font : Font) :
  filter is_ellipse (final_trace raises font) =
  ellipse_call (Draw 0) (32, 32, 992, 992) (Some (248, 249, 250, 255))
    (Some (222, 226, 230, 255)) 8 ::
  map (fun pos => ellipse_call (Draw 0) (heart_bbox pos) (Some (255, 105, 180, 150)) None 1)
    heart_positions.
Proof.
  unfold final_trace, label_trace. rewrite !filter_app.
  rewrite filter_font_trace by (now intros []). reflexivity.
Qed.

(** ** The output file and the return value *)

(** C1: in every run in which no drawing or file operation faults,
    whatever the font loads do (so whichever tier is selected),
    [generate_icon] saves its canvas as PNG under the relative path
    "icon.png", replacing whatever that name held and leaving every other
    file alone, and then returns the string "icon.png". *)
Theorem generate_icon_writes_icon_png (fs0 : gmap string File) :
  no_fault raises ->
  exists w canvas,
    generate_icon raises (initial_world fs0) = (Returns "icon.png", w) /\
    heap w !! 0%nat = Some canvas /\
    fs w !! "icon.png" = Some (Encoded "PNG" canvas) /\
    (forall fp, fp <> "icon.png" -> fs w !! fp = fs0 !! fp) /\
    segment [save_call 0 "icon.png" "PNG"] (trace w).
Proof.
  intros Hnf. rewrite generate_icon_run by assumption.
  eexists; eexists. split; [reflexivity|]. cbn [final_world heap fs trace].
  repeat split.
  - apply lookup_insert_eq.
  - intros fp Hfp. now apply lookup_insert_ne.
  - unfold final_trace. cbn [map sparkle_positions heart_positions].
    find_segment.
Qed.

(** C2: the canvas is created by [Image.new('RGBA', (1024, 1024),
    (248, 249, 250, 255))], the first call of the routine: an image of
    mode RGBA, 1024 by 1024, every pixel of which is that opaque color;
    and the image written to "icon.png" has the same size and mode. *)
Theorem canvas_is_1024_square_rgba (fs0 : gmap string File) :
  no_fault raises ->
  exists w0 canvas0 w canvas,
    Image_new raises "RGBA" (1024, 1024) (248, 249, 250, 255) (initial_world fs0)
      = (Returns 0%nat, w0) /\
    heap w0 = [canvas0] /\
    im_mode canvas0 = "RGBA" /\ im_size canvas0 = (1024, 1024) /\
    (forall x y, getpixel canvas0 x y = (248, 249, 250, 255)) /\
    alpha (248, 249, 250, 255) = 255 /\
    generate_icon raises (initial_world fs0) = (Returns "icon.png", w) /\
    head (trace w) = Some (Image_new_call "RGBA" (1024, 1024) (248, 249, 250, 255)) /\
    fs w !! "icon.png" = Some (Encoded "PNG" canvas) /\
    im_mode canvas = "RGBA" /\ im_size canvas = (1024, 1024).
Proof.
  intros Hnf. rewrite generate_icon_run by assumption.
  unfold Image_new. rewrite run_bind, call_ok by (apply Hnf; reflexivity).
  cbn [alloc initial_world log heap fs stdout trace length app].
  do 4 eexists.
  split; [reflexivity|]. split; [reflexivity|].
  repeat split; [cbn [final_world fs]; apply lookup_insert_eq | reflexivity ..].
Qed.

(** ** Font resolution *)

(** C3: the font chain is an ordered three-tier fallback.  From any
    world it ends normally with handles for both sizes, changes no
    image, file or console output, and performs exactly these loads:
    "arial.ttf" at 140 then (if that went through) at 40; if one of them
    raised, "C:/Windows/Fonts/arial.ttf" at 140 then at 40; if one of
    these raised too, the built-in default font, twice.  In a run without
    other faults the chain is the only place where fonts are loaded, it
    comes before every text measurement and drawing, the four text calls
    for "Hello" and "World" all use the 140pt handle it ended with, and
    the console only ever shows the final success line. *)
Theorem font_resolution_three_tiers :
  let arial := "arial.ttf" in
  let windows := "C:/Windows/Fonts/arial.ttf" in
  let font_large := resolved_font raises 140 in
  let font_emoji := resolved_font raises 40 in
  (forall w,
     load_fonts raises w =
     (Returns (font_large, font_emoji),
      {| heap := heap w; fs := fs w; stdout := stdout w;
         trace := trace w ++ font_trace raises |})) /\
  (forall path, tier_ok raises path = true <->
     raises (truetype_call path 140) = false /\
     raises (truetype_call path 40) = false) /\
  (forall path, tier_attempts raises path =
     if raises (truetype_call path 140) then [truetype_call path 140]
     else [truetype_call path 140; truetype_call path 40]) /\
  (tier_ok raises arial = true ->
     font_trace raises = [truetype_call arial 140; truetype_call arial 40] /\
     font_large = TrueTypeFont arial 140 /\ font_emoji = TrueTypeFont arial 40) /\
  (tier_ok raises arial = false -> tier_ok raises windows = true ->
     font_trace raises =
       tier_attempts raises arial ++
       [truetype_call windows 140; truetype_call windows 40] /\
     font_large = TrueTypeFont windows 140 /\ font_emoji = TrueTypeFont windows 40) /\
  (tier_ok raises arial = false -> tier_ok raises windows = false ->
     font_trace raises =
       tier_attempts raises arial ++ tier_attempts raises windows ++
       [load_default_call; load_default_call] /\
     font_large = DefaultFont /\ font_emoji = DefaultFont) /\
  (no_fault raises ->
   forall fs0, exists w pre post,
     generate_icon raises (initial_world fs0) = (Returns "icon.png", w) /\
     trace w = pre ++ font_trace raises ++ post /\
     forallb (fun c => negb (is_font_load c) && negb (is_text_op c)) pre = true /\
     forallb (fun c => negb (is_font_load c)) post = true /\
     filter is_text_op post =
       [textbbox_call (Draw 0) (0, 0) "Hello" font_large;
        text_call (Draw 1) (50, 25) "Hello" font_large (255, 59, 48, 255);
        textbbox_call (Draw 0) (0, 0) "World" font_large;
        text_call (Draw 3) (50, 25) "World" font_large (0, 122, 255, 255)] /\
     stdout w = ["Icon generated successfully as icon.png"]).
Proof.
  cbv zeta. repeat apply conj.
  - apply load_fonts_run.
  - intros path. unfold tier_ok. rewrite andb_true_iff, !negb_true_iff. reflexivity.
  - intros path. unfold tier_attempts. now destruct (raises _).
  - unfold font_trace, resolved_font, tier_attempts. intros E. rewrite E.
    unfold tier_ok in E. apply andb_prop in E. destruct E as [E _].
    apply negb_true_iff in E. rewrite E. auto.
  - unfold font_trace, resolved_font. intros E1 E2. rewrite E1, E2.
    split; [|auto]. f_equal. unfold tier_attempts.
    unfold tier_ok in E2. apply andb_prop in E2. destruct E2 as [E2 _].
    apply negb_true_iff in E2. rewrite E2. reflexivity.
  - unfold font_trace, resolved_font. intros E1 E2. rewrite E1, E2. auto.
  - intros Hnf fs0. rewrite generate_icon_run by assumption.
    eexists; eexists; eexists. split; [reflexivity|].
    cbn [final_world trace stdout]. unfold final_trace.
    split; [reflexivity|].
    repeat split.
Qed.

(** ** The two labels *)

(** C4: for "Hello" and for "World", with w and h the width and height
    of the box [textbbox] measures for the label in the resolved font, the
    routine measures, allocates an RGBA layer of size (w + 100, h + 50)
    filled with (0, 0, 0, 0), and draws the label on that layer at
    (50, 25) in its color, red (255, 59, 48, 255) for "Hello" and blue
    (0, 122, 255, 255) for "World"; the layer then is the transparent
    image with that one text drawn on it. *)
Theorem label_layer_padding_and_inset (fs0 : gmap string File) :
  no_fault raises ->
  let font := resolved_font raises 140 in
  let hello_bbox := textbbox_of (0, 0) "Hello" font in
  let hello_w := item2 hello_bbox - item0 hello_bbox in
  let hello_h := item3 hello_bbox - item1 hello_bbox in
  let world_bbox := textbbox_of (0, 0) "World" font in
  let world_w := item2 world_bbox - item0 world_bbox in
  let world_h := item3 world_bbox - item1 world_bbox in
  exists w,
    generate_icon raises (initial_world fs0) = (Returns "icon.png", w) /\
    segment [textbbox_call (Draw 0) (0, 0) "Hello" font;
             Image_new_call "RGBA" (hello_w + 100, hello_h + 50) (0, 0, 0, 0);
             ImageDraw_Draw_call 1;
             text_call (Draw 1) (50, 25) "Hello" font (255, 59, 48, 255)]
            (trace w) /\
    heap w !! 1%nat =
      Some (text_pixels (50, 25) "Hello" font (255, 59, 48, 255)
              (new_image "RGBA" (hello_w + 100, hello_h + 50) (0, 0, 0, 0))) /\
    segment [textbbox_call (Draw 0) (0, 0) "World" font;
             Image_new_call "RGBA" (world_w + 100, world_h + 50) (0, 0, 0, 0);
             ImageDraw_Draw_call 3;
             text_call (Draw 3) (50, 25) "World" font (0, 122, 255, 255)]
            (trace w) /\
    heap w !! 3%nat =
      Some (text_pixels (50, 25) "World" font (0, 122, 255, 255)
              (new_image "RGBA" (world_w + 100, world_h + 50) (0, 0, 0, 0))) /\
    (forall size x y,
       im_size (new_image "RGBA" size (0, 0, 0, 0)) = size /\
       getpixel (new_image "RGBA" size (0, 0, 0, 0)) x y = (0, 0, 0, 0)).
Proof.
  intros Hnf. cbv zeta. rewrite generate_icon_run by assumption.
  eexists. split; [reflexivity|].
  cbn [final_world heap trace]. unfold final_trace, label_trace.
  repeat apply conj; try reflexivity; try find_segment.
  intros; split; reflexivity.
Qed.

(** C5: the layer holding "Hello" is rotated by -8 and the layer holding
    "World" by 5, both with [expand=True]; these are the only rotations,
    each follows the drawing of its label, and the image each returns is
    what [Image.rotate] makes of the layer with these arguments. *)
Theorem label_rotation_angles (fs0 : gmap string File) :
  no_fault raises ->
  let font := resolved_font raises 140 in
  exists w hello_img world_img,
    generate_icon raises (initial_world fs0) = (Returns "icon.png", w) /\
    filter is_rotate (trace w) = [rotate_call 1 (-8) true; rotate_call 3 5 true] /\
    segment [text_call (Draw 1) (50, 25) "Hello" font (255, 59, 48, 255);
             rotate_call 1 (-8) true] (trace w) /\
    segment [text_call (Draw 3) (50, 25) "World" font (0, 122, 255, 255);
             rotate_call 3 5 true] (trace w) /\
    heap w !! 1%nat = Some hello_img /\
    heap w !! 2%nat = Some (rotate_image hello_img (-8) true) /\
    heap w !! 3%nat = Some world_img /\
    heap w !! 4%nat = Some (rotate_image world_img 5 true).
Proof.
  intros Hnf. cbv zeta. rewrite generate_icon_run by assumption.
  do 3 eexists. split; [reflexivity|].
  cbn [final_world heap trace]. unfold final_trace, label_trace.
  split.
  - rewrite !filter_app.
    rewrite filter_font_trace by (now intros []). reflexivity.
  - repeat apply conj; try reflexivity; find_segment.
Qed.

(** C6: each rotated layer is pasted into the canvas with itself as the
    mask, "Hello" at (512 - w_hello // 2 - 50, 350 - 25) and "World" at
    (512 - w_world // 2 - 50, 520 - 25), where w is the measured text
    width; these are the only pastes, and each follows the rotation that
    made the layer it pastes. *)
Theorem label_paste_positions (fs0 : gmap string File) :
  no_fault raises ->
  let font := resolved_font raises 140 in
  let hello_bbox := textbbox_of (0, 0) "Hello" font in
  let hello_width := item2 hello_bbox - item0 hello_bbox in
  let world_bbox := textbbox_of (0, 0) "World" font in
  let world_width := item2 world_bbox - item0 world_bbox in
  exists w hello_rot world_rot,
    generate_icon raises (initial_world fs0) = (Returns "icon.png", w) /\
    filter is_paste (trace w) =
      [paste_call 0 2 (512 - hello_width / 2 - 50, 350 - 25) 2;
       paste_call 0 4 (512 - world_width / 2 - 50, 520 - 25) 4] /\
    segment [rotate_call 1 (-8) true;
             paste_call 0 2 (512 - hello_width / 2 - 50, 350 - 25) 2] (trace w) /\
    segment [rotate_call 3 5 true;
             paste_call 0 4 (512 - world_width / 2 - 50, 520 - 25) 4] (trace w) /\
    heap w !! 2%nat = Some hello_rot /\
    heap w !! 4%nat = Some world_rot.
Proof.
  intros Hnf. cbv zeta. rewrite generate_icon_run by assumption.
  do 3 eexists. split; [reflexivity|].
  cbn [final_world heap trace]. unfold final_trace, label_trace.
  split.
  - rewrite !filter_app.
    rewrite filter_font_trace by (now intros []). reflexivity.
  - repeat apply conj; try reflexivity; find_segment.
Qed.

(** ** The center of the badge *)

Lemma heart_misses_center (pos : Z * Z) :
  pos ∈ heart_positions -> in_ellipse (heart_bbox pos) 512 512 = false.
Proof.
  unfold heart_positions. rewrite !elem_of_cons, elem_of_nil.
  intros [-> | [-> | []]];
    (destruct (in_ellipse _ 512 512) eqn:E; [|reflexivity]);
    apply in_ellipse_box in E; cbn in E; lia.
Qed.

Lemma border_misses_center : on_outline (32, 32, 992, 992) 8 512 512 = false.
Proof.
  destruct (on_outline _ 8 512 512) eqn:E; [|reflexivity].
  apply on_outline_band in E.
  change (inset (32, 32, 992, 992) 8)
    with (512 - 472, 512 - 472, 512 + 472, 512 + 472) in E.
  rewrite in_ellipse_center in E by lia. discriminate.
Qed.

(** C9: in a run without faults, if no pasted text layer covers the
    pixel (512, 512) (its mask is transparent there, or it lies outside
    the pasted box) and no star polygon covers it, then the written
    canvas holds the opaque background fill (248, 249, 250, 255) at
    (512, 512).  The hearts need no hypothesis: their boxes do not
    contain the pixel. *)
Theorem center_pixel_is_background (fs0 : gmap string File) :
  no_fault raises ->
  let w := snd (generate_icon raises (initial_world fs0)) in
  (forall im src box mask m,
     paste_call im src box mask ∈ trace w -> heap w !! mask = Some m ->
     paste_covers box m 512 512 = false) ->
  (forall d xy fill,
     polygon_call d xy fill ∈ trace w -> in_polygon xy 512 512 = false) ->
  exists canvas,
    generate_icon raises (initial_world fs0) = (Returns "icon.png", w) /\
    heap w !! 0%nat = Some canvas /\
    fs w !! "icon.png" = Some (Encoded "PNG" canvas) /\
    getpixel canvas 512 512 = (248, 249, 250, 255) /\
    alpha (getpixel canvas 512 512) = 255.
Proof.
  intros Hnf. rewrite generate_icon_run by assumption. cbn [snd].
  cbn [final_world trace heap fs]. set (font := resolved_font raises 140).
  intros Hpaste Hpoly.
  assert (P1 : paste_covers (512 - label_width "Hello" font / 2 - 50, 350 - 25)
                 (hello_rotated font) 512 512 = false).
  { apply (Hpaste 0%nat 2%nat _ 2%nat); [|reflexivity].
    unfold final_trace, label_trace. find_call. }
  assert (P2 : paste_covers (512 - label_width "World" font / 2 - 50, 520 - 25)
                 (world_rotated font) 512 512 = false).
  { apply (Hpaste 0%nat 4%nat _ 4%nat); [|reflexivity].
    unfold final_trace, label_trace. find_call. }
  assert (S : forall pos, pos ∈ sparkle_positions ->
                in_polygon (star_points pos) 512 512 = false).
  { intros pos Hpos. apply (Hpoly (Draw 0) _ (255, 215, 0, 200)).
    unfold final_trace. do 4 (apply elem_of_app; right).
    apply elem_of_app; left. apply list_elem_of_fmap. now exists pos. }
  assert (E : getpixel (final_canvas font) 512 512 = (248, 249, 250, 255)).
  { unfold final_canvas, canvas_stars, canvas_labels, background,
      sparkle_positions, heart_positions in *.
    cbn [fold_left]. unfold ellipse_pixels, polygon_pixels, paste_pixels, set_pixels.
    cbn [getpixel new_image].
    change (512 - label_width "World" font / 2 - 50, 495)
      with (512 - label_width "World" font / 2 - 50, 520 - 25).
    change (512 - label_width "Hello" font / 2 - 50, 325)
      with (512 - label_width "Hello" font / 2 - 50, 350 - 25).
    rewrite P1, P2.
    rewrite !heart_misses_center by (unfold heart_positions; find_call).
    rewrite !S by find_call.
    rewrite border_misses_center. cbn.
    now destruct (in_ellipse _ 512 512). }
  exists (final_canvas font).
  split; [reflexivity|]. split; [reflexivity|].
  split; [apply lookup_insert_eq|].
  rewrite E. split; reflexivity.
Qed.

End Run.

(** ** The stars *)

Section Stars.

Context {F : Type} `{Floats F}.

Lemma star_points_length (pos : Z * Z) : length (star_points pos) = 10%nat.
Proof. reflexivity. Qed.

(** The list the loop builds, vertex by vertex. *)
Lemma star_points_lookup (pos : Z * Z) (i : nat) :
  (i < 10)%nat ->
  star_points pos !! i =
  Some (fadd (of_int (fst pos))
          (fmul (of_int (if Nat.even i then 20 else 10))
             (math_cos (math_radians (of_int (Z.of_nat i * 36 - 90))))),
        fadd (of_int (snd pos))
          (fmul (of_int (if Nat.even i then 20 else 10))
             (math_sin (math_radians (of_int (Z.of_nat i * 36 - 90)))))).
Proof.
  intros Hi. do 10 (destruct i as [|i]; [reflexivity|]). lia.
Qed.

End Stars.

Section IdealArithmetic.

Context {Rst : Raster R}.
Variable raises : Call R -> bool.

Open Scope R_scope.

Lemma quarter_turn_up : IZR (-90) * (PI / 180) = - (PI / 2).
Proof. lra. Qed.

(** A point at distance at most 20 of a center that is at least 20 away
    from the edges stays on the canvas. *)
Lemma polar_on_canvas (c r : Z) (t : R) :
  (20 <= c <= 1004)%Z -> (0 <= r <= 20)%Z -> -1 <= t <= 1 ->
  0 <= IZR c + IZR r * t <= 1024.
Proof.
  intros [Hc1 Hc2] [Hr1 Hr2] Ht.
  apply IZR_le in Hc1, Hc2, Hr1, Hr2. nra.
Qed.

Lemma star_radius (i : nat) : (0 <= (if Nat.even i then 20 else 10) <= 20)%Z.
Proof. destruct (Nat.even i); lia. Qed.

Lemma sparkle_margin (pos : Z * Z) :
  pos ∈ sparkle_positions ->
  (20 <= fst pos <= 1004 /\ 20 <= snd pos <= 1004)%Z.
Proof.
  unfold sparkle_positions. rewrite !elem_of_cons, elem_of_nil.
  intros [-> | [-> | [-> | [-> | []]]]]; cbn; lia.
Qed.

Lemma star_vertex_on_canvas (pos : Z * Z) (p : R * R) :
  pos ∈ sparkle_positions -> p ∈ star_points pos ->
  0 <= fst p <= 1024 /\ 0 <= snd p <= 1024.
Proof.
  intros Hpos Hp. apply sparkle_margin in Hpos. destruct Hpos as [Hx Hy].
  apply list_elem_of_lookup in Hp. destruct Hp as [i Hi].
  assert (Hlt : (i < 10)%nat).
  { apply lookup_lt_Some in Hi. now rewrite star_points_length in Hi. }
  rewrite star_points_lookup in Hi by assumption.
  injection Hi as <-. cbn [fst snd of_int fadd fmul math_cos math_sin Floats_R].
  split; apply polar_on_canvas; auto using star_radius, COS_bound, SIN_bound.
Qed.

(** C7: each of the 4 star positions gets one polygon, filled with
    (255, 215, 0, 200), of exactly 10 vertices; in real arithmetic vertex
    i is (pos_x + r cos a, pos_y + r sin a) with a the angle i * 36 - 90
    degrees in radians and r = 20 for even i, 10 for odd i; vertex 0 is
    (pos_x, pos_y - 20), straight above the position. *)
Theorem star_polygon_vertices (fs0 : gmap string File) :
  no_fault raises ->
  exists w,
    generate_icon raises (initial_world fs0) = (Returns "icon.png", w) /\
    filter is_polygon (trace w) =
      map (fun pos => polygon_call (Draw 0) (star_points pos) (255, 215, 0, 200)%Z)
        [(180, 200); (844, 180); (160, 780); (860, 820)]%Z /\
    forall pos : Z * Z,
      length (star_points pos) = 10%nat /\
      (forall i : nat, (i < 10)%nat ->
         let r := IZR (if Nat.even i then 20 else 10) in
         let a := IZR (Z.of_nat i * 36 - 90) * (PI / 180) in
         star_points pos !! i =
         Some (IZR (fst pos) + r * cos a, IZR (snd pos) + r * sin a)) /\
      star_points pos !! 0%nat = Some (IZR (fst pos), IZR (snd pos) - 20).
Proof.
  intros Hnf. rewrite generate_icon_run by assumption.
  eexists. split; [reflexivity|]. cbn [final_world trace].
  split; [apply final_trace_polygons|].
  intros pos. split; [apply star_points_length|]. split.
  - intros i Hi. cbv zeta. now rewrite star_points_lookup.
  - rewrite star_points_lookup by lia.
    cbn [of_int fadd fmul math_cos math_sin math_radians Floats_R Nat.even].
    change (Z.of_nat 0 * 36 - 90)%Z with (-90)%Z.
    rewrite quarter_turn_up, cos_neg, sin_neg, cos_PI2, sin_PI2.
    do 2 f_equal; lra.
Qed.

(** C8: every coordinate handed to a drawing call of a decoration lies in
    [0, 1024]: the vertices of every polygon (in real arithmetic), the
    corners of every ellipse box, and so every pixel a heart covers; the
    star positions keep a margin of 20 and the heart positions a margin
    of 15 to the canvas edges. *)
Theorem decorations_within_canvas (fs0 : gmap string File) :
  no_fault raises ->
  exists w,
    generate_icon raises (initial_world fs0) = (Returns "icon.png", w) /\
    (forall d xy fill, polygon_call d xy fill ∈ trace w ->
       forall p, p ∈ xy -> 0 <= fst p <= 1024 /\ 0 <= snd p <= 1024) /\
    (forall d xy fill outline width,
       ellipse_call d xy fill outline width ∈ trace w ->
       (0 <= item0 xy <= 1024 /\ 0 <= item1 xy <= 1024 /\
        0 <= item2 xy <= 1024 /\ 0 <= item3 xy <= 1024)%Z) /\
    (forall pos, pos ∈ [(180, 200); (844, 180); (160, 780); (860, 820)]%Z ->
       (0 <= fst pos - 20 /\ fst pos + 20 <= 1024 /\
        0 <= snd pos - 20 /\ snd pos + 20 <= 1024)%Z) /\
    (forall pos, pos ∈ [(240, 340); (780, 680)]%Z ->
       (0 <= fst pos - 15 /\ fst pos + 15 <= 1024 /\
        0 <= snd pos - 15 /\ snd pos + 15 <= 1024)%Z /\
       ellipse_call (Draw 0) (fst pos - 15, snd pos - 15, fst pos + 15, snd pos + 15)%Z
         (Some (255, 105, 180, 150)%Z) None 1%Z ∈ trace w /\
       forall x y : Z,
         in_ellipse (fst pos - 15, snd pos - 15, fst pos + 15, snd pos + 15)%Z x y = true ->
         (0 <= x <= 1024 /\ 0 <= y <= 1024)%Z).
Proof.
  intros Hnf. rewrite generate_icon_run by assumption.
  eexists. split; [reflexivity|]. cbn [final_world trace].
  set (font := resolved_font raises 140).
  repeat apply conj.
  - intros d xy fill Hc p Hp.
    assert (Hf : polygon_call d xy fill ∈ filter is_polygon (final_trace raises font))
      by (apply list_elem_of_filter; split; [exact I | assumption]).
    rewrite final_trace_polygons in Hf. apply list_elem_of_fmap in Hf.
    destruct Hf as (pos & E & Hpos). injection E as -> -> ->.
    now apply (star_vertex_on_canvas pos).
  - intros d xy fill outline width Hc.
    assert (Hf : ellipse_call d xy fill outline width
                 ∈ filter is_ellipse (final_trace raises font))
      by (apply list_elem_of_filter; split; [exact I | assumption]).
    rewrite final_trace_ellipses in Hf. unfold heart_positions in Hf.
    cbn [map] in Hf. rewrite !elem_of_cons, elem_of_nil in Hf.
    destruct Hf as [E | [E | [E | []]]]; injection E as -> -> -> -> ->;
      cbn; lia.
  - intros pos Hpos. apply sparkle_margin in Hpos. lia.
  - intros pos Hpos. rewrite !elem_of_cons, elem_of_nil in Hpos.
    destruct Hpos as [-> | [-> | []]]; cbn [fst snd];
      (split; [lia|]); (split; [unfold final_trace, label_trace; find_call|]);
      intros x y E; apply in_ellipse_box in E; lia.
Qed.

End IdealArithmetic.

(** ** What the run owes to [font_emoji] *)

Section Frame.

Context {F : Type} `{Floats F} {Rst : Raster F}.
Variable raises : Call F -> bool.

Lemma same_output_refl (w : World F) : same_output w w.
Proof. repeat split. Qed.

Lemma sim_ret {A : Type} (a : A) : sim eq (mret a : M F A) (mret a).
Proof. intros w w' E. cbn. auto. Qed.

Lemma sim_bind {A A' B B' : Type} (R : A -> A' -> Prop) (S : B -> B' -> Prop)
    (m : M F A) (m' : M F A') (k : A -> M F B) (k' : A' -> M F B') :
  sim R m m' -> (forall a a', R a a' -> sim S (k a) (k' a')) ->
  sim S (m ≫= k) (m' ≫= k').
Proof.
  intros Hm Hk w w' E. unfold mbind, M_bind. specialize (Hm w w' E).
  destruct (m w) as [[a|] v], (m' w') as [[a'|] v']; try contradiction.
  - destruct Hm as [Ha Hv]. now apply Hk.
  - exact Hm.
Qed.

Lemma sim_bind_eq {A B : Type} (m : M F A) (k k' : A -> M F B) :
  sim eq m m -> (forall a, sim eq (k a) (k' a)) -> sim eq (m ≫= k) (m ≫= k').
Proof. intros Hm Hk. apply (sim_bind eq); [assumption|]. now intros a ? <-. Qed.

Lemma sim_call (c : Call F) : sim eq (call raises c) (call raises c).
Proof.
  intros w w' E. unfold call. destruct (raises c); cbn; auto.
Qed.

Lemma sim_alloc (im : Image) : sim eq (alloc (F := F) im) (alloc im).
Proof.
  intros w w' (Eh & Ef & Es). unfold alloc, same_output. cbn.
  rewrite Eh. auto.
Qed.

Lemma sim_read_image (r : nat) : sim eq (read_image (F := F) r) (read_image r).
Proof.
  intros w w' (Eh & Ef & Es). unfold read_image. rewrite Eh.
  destruct (heap w' !! r); repeat split; assumption.
Qed.

Lemma sim_modify_image (r : nat) (f : Image -> Image) :
  sim eq (modify_image (F := F) r f) (modify_image r f).
Proof.
  intros w w' (Eh & Ef & Es). unfold modify_image. rewrite Eh.
  destruct (heap w' !! r); unfold same_output; cbn; auto.
Qed.

Lemma sim_write_file (fp : string) (f : File) :
  sim eq (write_file (F := F) fp f) (write_file fp f).
Proof.
  intros w w' (Eh & Ef & Es). unfold write_file, same_output. cbn.
  rewrite Ef. auto.
Qed.

Lemma sim_write_stdout (s : string) :
  sim eq (write_stdout (F := F) s) (write_stdout s).
Proof.
  intros w w' (Eh & Ef & Es). unfold write_stdout, same_output. cbn.
  rewrite Es. auto.
Qed.

#[local] Hint Resolve sim_ret sim_call sim_alloc sim_read_image sim_modify_image
  sim_write_file sim_write_stdout : sim.

Ltac sim_steps :=
  repeat first [ apply sim_bind_eq; [solve [auto with sim] | intros ?]
               | solve [auto with sim] ].

Lemma sim_Image_new mode size color :
  sim eq (Image_new raises mode size color) (Image_new raises mode size color).
Proof. unfold Image_new. sim_steps. Qed.

Lemma sim_ImageDraw_Draw im :
  sim eq (ImageDraw_Draw raises im) (ImageDraw_Draw raises im).
Proof. unfold ImageDraw_Draw. sim_steps. Qed.

Lemma sim_draw_ellipse d xy fill outline width :
  sim eq (draw_ellipse raises d xy fill outline width)
         (draw_ellipse raises d xy fill outline width).
Proof. unfold draw_ellipse. sim_steps. Qed.

Lemma sim_draw_textbbox d xy text font :
  sim eq (draw_textbbox raises d xy text font) (draw_textbbox raises d xy text font).
Proof. unfold draw_textbbox. sim_steps. Qed.

Lemma sim_draw_text d xy text font fill :
  sim eq (draw_text raises d xy text font fill) (draw_text raises d xy text font fill).
Proof. unfold draw_text. sim_steps. Qed.

Lemma sim_Image_rotate im angle expand :
  sim eq (Image_rotate raises im angle expand) (Image_rotate raises im angle expand).
Proof. unfold Image_rotate. sim_steps. Qed.

Lemma sim_Image_paste im src box mask :
  sim eq (Image_paste raises im src box mask) (Image_paste raises im src box mask).
Proof. unfold Image_paste. sim_steps. Qed.

Lemma sim_draw_polygon d xy fill :
  sim eq (draw_polygon raises d xy fill) (draw_polygon raises d xy fill).
Proof. unfold draw_polygon. sim_steps. Qed.

Lemma sim_Image_save im fp format :
  sim eq (Image_save raises im fp format) (Image_save raises im fp format).
Proof. unfold Image_save. sim_steps. Qed.

Lemma sim_print s : sim eq (print raises s) (print raises s).
Proof. unfold print. sim_steps. Qed.

Lemma sim_for_each {A : Type} (l : list A) (body : A -> M F unit) :
  (forall x, sim eq (body x) (body x)) -> sim eq (for_each l body) (for_each l body).
Proof.
  intros Hb. induction l as [|x l IH]; cbn [for_each].
  - apply sim_ret.
  - apply sim_bind_eq; [apply Hb | intros _; exact IH].
Qed.

#[local] Hint Resolve sim_Image_new sim_ImageDraw_Draw sim_draw_ellipse
  sim_draw_textbbox sim_draw_text sim_Image_rotate sim_Image_paste
  sim_draw_polygon sim_Image_save sim_print sim_for_each : sim.

(** The chain of [generate_icon] and the chain without the 40pt loads
    end with the same large font when a 40pt load never raises where the
    140pt load of the same file went through. *)
Lemma sim_load_fonts :
  (forall path, raises (truetype_call path 140) = false ->
                raises (truetype_call path 40) = false) ->
  sim (fun p f => fst p = f) (load_fonts raises) (load_font_large raises).
Proof.
  intros He w w' E.
  unfold load_fonts, load_font_large, try_except, ImageFont_truetype,
    ImageFont_load_default, mbind, M_bind, mret, M_ret, call.
  destruct (raises (truetype_call "arial.ttf" 140)) eqn:E1;
    [|rewrite (He _ E1)];
    (destruct (raises (truetype_call "C:/Windows/Fonts/arial.ttf" 140)) eqn:E2;
     [|rewrite ?(He _ E2)]);
    cbn; auto.
Qed.

(** C10, as the code has it: the handle [font_emoji] is bound and never
    used, and when no 40pt load raises for a file whose 140pt load went
    through, every run of [generate_icon], faulting or not, ends like the
    run of the routine without the [font_emoji] lines: same return value
    or same exception, same images, same files, same console. *)
Theorem font_emoji_is_dead_when_it_loads (fs0 : gmap string File) :
  (forall path, raises (truetype_call path 140) = false ->
                raises (truetype_call path 40) = false) ->
  fst (generate_icon raises (initial_world fs0)) =
  fst (generate_icon_without_font_emoji raises (initial_world fs0)) /\
  same_output (snd (generate_icon raises (initial_world fs0)))
              (snd (generate_icon_without_font_emoji raises (initial_world fs0))).
Proof.
  intros He.
  assert (S : sim eq (generate_icon raises) (generate_icon_without_font_emoji raises)).
  { unfold generate_icon, generate_icon_without_font_emoji.
    do 3 (apply sim_bind_eq; [solve [auto with sim] | intros ?]).
    apply (sim_bind (fun p f => fst p = f)); [now apply sim_load_fonts|].
    intros [font_large font_emoji] f E. cbn in E. subst f.
    sim_steps. }
  specialize (S (initial_world fs0) (initial_world fs0) (same_output_refl _)).
  destruct (generate_icon raises (initial_world fs0)) as [[a|] v],
    (generate_icon_without_font_emoji raises (initial_world fs0)) as [[a'|] v'];
    try contradiction; cbn [fst snd].
  - destruct S as [-> S]. auto.
  - auto.
Qed.

End Frame.

(** ** Every run, faulting or not *)

Section EveryRun.

Context {F : Type} `{Floats F} {Rst : Raster F}.
Variable raises : Call F -> bool.

#[local] Arguments ellipse_pixels : simpl never.
#[local] Arguments text_pixels : simpl never.
#[local] Arguments polygon_pixels : simpl never.
#[local] Arguments paste_pixels : simpl never.
#[local] Arguments new_image : simpl never.
#[local] Arguments star_points : simpl never.
#[local] Arguments behaves : simpl never.

Lemma font_trace_loads (c : Call F) :
  c ∈ font_trace raises -> is_font_load c = true.
Proof.
  unfold font_trace, tier_attempts.
  repeat match goal with |- context [if ?b then _ else _] => destruct b end;
    cbn [app]; rewrite ?elem_of_cons, ?elem_of_nil; intuition (subst; reflexivity).
Qed.

Lemma font_trace_no_fault (c : Call F) :
  c ∈ font_trace raises -> faults raises c = false.
Proof. intros Hc. unfold faults. now rewrite (font_trace_loads c Hc). Qed.

Lemma until_fault_app (l rest : list (Call F)) :
  (forall c, c ∈ l -> faults raises c = false) ->
  until_fault raises (l ++ rest) = l ++ until_fault raises rest.
Proof.
  induction l as [|c l IH]; intros Hl; [reflexivity|].
  cbn [app until_fault].
  rewrite (Hl c) by apply list_elem_of_here.
  rewrite IH; [reflexivity|]. intros c' Hc'. apply Hl. now apply list_elem_of_further.
Qed.

Lemma existsb_skip (p : Call F -> bool) (l rest : list (Call F)) :
  (forall c, c ∈ l -> p c = false) ->
  existsb p (l ++ rest) = existsb p rest.
Proof.
  induction l as [|c l IH]; intros Hl; [reflexivity|].
  cbn [app existsb]. rewrite (Hl c) by apply list_elem_of_here. cbn [orb].
  apply IH. intros c' Hc'. apply Hl. now apply list_elem_of_further.
Qed.

Lemma forallb_skip (p : Call F -> bool) (l rest : list (Call F)) :
  (forall c, c ∈ l -> p c = true) ->
  forallb p (l ++ rest) = forallb p rest.
Proof.
  induction l as [|c l IH]; intros Hl; [reflexivity|].
  cbn [app forallb]. rewrite (Hl c) by apply list_elem_of_here. cbn [andb].
  apply IH. intros c' Hc'. apply Hl. now apply list_elem_of_further.
Qed.

(** When some call of a plan faults, the calls made end with a call of
    the plan that faults. *)
Lemma until_fault_last (l : list (Call F)) :
  existsb (faults raises) l = true ->
  exists c, last (until_fault raises l) = Some c /\ c ∈ l /\ faults raises c = true.
Proof.
  induction l as [|c l IH]; cbn [existsb until_fault]; [discriminate|].
  destruct (faults raises c) eqn:E; cbn [orb].
  - intros _. exists c. repeat split; [apply list_elem_of_here | assumption].
  - intros Hl. destruct (IH Hl) as (c' & Hlast & Hin & Hf).
    exists c'. repeat split; [|now apply list_elem_of_further | assumption].
    destruct (until_fault raises l); [discriminate|].
    rewrite last_cons. now rewrite Hlast.
Qed.

Lemma existsb_faults_false (l : list (Call F)) :
  existsb (faults raises) l = false ->
  forall c, c ∈ l -> is_font_load c = false -> raises c = false.
Proof.
  intros E c Hc Hl. destruct (raises c) eqn:Er; [|reflexivity].
  assert (X : existsb (faults raises) l = true).
  { apply existsb_exists. exists c. split; [now apply list_elem_of_In|].
    unfold faults. now rewrite Hl, Er. }
  congruence.
Qed.

Lemma harmless_of_no_fault (l : list (Call F)) :
  existsb (faults raises) l = false -> forallb (harmless raises) l = true.
Proof.
  intros E. apply forallb_forall. intros c Hc. unfold harmless.
  destruct (faults raises c) eqn:Ef; [|apply orb_true_r].
  assert (X : existsb (faults raises) l = true)
    by (apply existsb_exists; now exists c).
  congruence.
Qed.

Ltac explore :=
  cbn -[font_trace resolved_font load_fonts];
  first
    [ rewrite run_bind; explore
    | rewrite load_fonts_run; explore
    | match goal with
      | |- context [call raises ?c _] =>
          unfold call at 1; destruct (raises c) eqn:?; explore
      end
    | idtac ].

(** Whatever raises: one case per call that can fault. *)
Lemma generate_icon_any_machine (fs0 : gmap string File) :
  let plan := final_trace raises (resolved_font raises 140) in
  behaves raises fs0 (until_fault raises plan) (existsb (faults raises) plan)
    (forallb (harmless raises) plan)
    (generate_icon raises (initial_world fs0)).
Proof.
  cbv zeta.
  unfold generate_icon, initial_world, Image_new, ImageDraw_Draw, draw_ellipse,
    draw_textbbox, draw_text, Image_rotate, Image_paste, draw_polygon,
    Image_save, print.
  change (fst (512, 512) - 480, snd (512, 512) - 480,
          fst (512, 512) + 480, snd (512, 512) + 480) with (32, 32, 992, 992).
  change ("Icon generated successfully as " ++ "icon.png")%string
    with "Icon generated successfully as icon.png".
  unfold final_trace, label_trace, label_width, label_height, heart_bbox.
  cbn [app until_fault existsb forallb map sparkle_positions heart_positions].
  rewrite until_fault_app by apply font_trace_no_fault.
  rewrite existsb_skip by apply font_trace_no_fault.
  rewrite forallb_skip
    by (intros c Hc; unfold harmless; rewrite (font_trace_no_fault c Hc);
        apply orb_true_r).
  unfold harmless.
  cbn [app until_fault existsb forallb faults is_font_load is_print negb andb orb
       fst snd].
  explore.
  all: unfold behaves, mret, M_ret; cbn [fst snd log trace stdout fs heap];
    repeat apply conj;
    repeat first [rewrite <- app_assoc | progress cbn [app]]; try reflexivity.
  all: intros c Hc; cbn in Hc; try discriminate Hc; injection Hc as <-;
    split; reflexivity.
Qed.

End EveryRun.

Section Outcomes.

Context {F : Type} `{Floats F} {Rst : Raster F}.
Variable raises : Call F -> bool.


Lemma print_in_plan (font : Font) :
  print_call "Icon generated successfully as icon.png" ∈ final_trace raises font.
Proof. unfold final_trace, label_trace. find_call. Qed.

Lemma main_outcome (w : World F) :
  main raises w =
  (match fst (generate_icon raises w) with
   | Returns _ => Returns tt
   | Raised => Raised
   end, snd (generate_icon raises w)).
Proof.
  unfold main. rewrite run_bind. now destruct (generate_icon raises w) as [[p|] w'].
Qed.

(** X1: on every machine the calls the routine makes are the calls of a
    fault-free run, in order, cut off right after the first call outside
    the font chain that raises. *)
Theorem calls_stop_at_first_fault (fs0 : gmap string File) :
  trace (snd (generate_icon raises (initial_world fs0))) =
  until_fault raises (final_trace raises (resolved_font raises 140)).
Proof. apply generate_icon_any_machine. Qed.

(** X2: on every machine the routine either returns "icon.png", and then
    no call it planned outside the font chain raises, or it ends with an
    exception, and then the last call it made is a planned call outside
    the font chain that raises: nothing after a fault is attempted and no
    other value is ever returned. *)
Theorem returns_or_raises_at_the_fault (fs0 : gmap string File) :
  let r := generate_icon raises (initial_world fs0) in
  let plan := final_trace raises (resolved_font raises 140) in
  (fst r = Returns "icon.png" /\
   forall c, c ∈ plan -> is_font_load c = false -> raises c = false) \/
  (fst r = Raised /\
   exists c, last (trace (snd r)) = Some c /\ c ∈ plan /\
             is_font_load c = false /\ raises c = true).
Proof.
  cbv zeta. destruct (generate_icon_any_machine raises fs0) as (Ht & Ho & _).
  destruct (existsb _ _) eqn:E.
  - right. split; [assumption|].
    destruct (until_fault_last raises _ E) as (c & Hlast & Hin & Hf).
    exists c. rewrite Ht. unfold faults in Hf. apply andb_prop in Hf.
    destruct Hf as [Hl Hr]. apply negb_true_iff in Hl. auto.
  - left. split; [assumption|]. now apply existsb_faults_false.
Qed.

(** X3: on every machine the console ends empty when the routine raises
    and with the one success line when it returns; and when it returns,
    "icon.png" holds the PNG of a 1024x1024 RGBA image.  So the success
    line is never shown without the file having been written. *)
Theorem success_line_only_after_save (fs0 : gmap string File) :
  let r := generate_icon raises (initial_world fs0) in
  (fst r = Raised /\ stdout (snd r) = []) \/
  (fst r = Returns "icon.png" /\
   stdout (snd r) = ["Icon generated successfully as icon.png"] /\
   exists canvas,
     fs (snd r) !! "icon.png" = Some (Encoded "PNG" canvas) /\
     im_mode canvas = "RGBA" /\ im_size canvas = (1024, 1024)).
Proof.
  cbv zeta. destruct (generate_icon_any_machine raises fs0) as (_ & Ho & Hs & Hf & _).
  destruct (existsb _ _) eqn:E; [left; auto|]. right.
  rewrite (harmless_of_no_fault raises _ E) in Hf.
  repeat split; [assumption..|].
  eexists. rewrite Hf. split; [apply lookup_insert_eq|]. split; reflexivity.
Qed.


(** X5: when only the final [print] raises, the routine ends with the
    exception and an empty console, but "icon.png" has already been
    written with the finished 1024x1024 RGBA canvas. *)
Theorem print_fault_keeps_written_icon (fs0 : gmap string File) :
  (forall c, is_print c = false -> is_font_load c = false -> raises c = false) ->
  raises (print_call "Icon generated successfully as icon.png") = true ->
  let r := generate_icon raises (initial_world fs0) in
  fst r = Raised /\ stdout (snd r) = [] /\
  exists canvas,
    fs (snd r) = <["icon.png" := Encoded "PNG" canvas]> fs0 /\
    im_mode canvas = "RGBA" /\ im_size canvas = (1024, 1024).
Proof.
  intros Hok Hp. cbv zeta.
  destruct (generate_icon_any_machine raises fs0) as (_ & Ho & Hs & Hf & _).
  assert (E : existsb (faults raises) (final_trace raises (resolved_font raises 140)) = true).
  { apply existsb_exists. eexists. split.
    - apply list_elem_of_In, print_in_plan.
    - unfold faults. now rewrite Hp. }
  assert (Eh : forallb (harmless raises) (final_trace raises (resolved_font raises 140)) = true).
  { apply forallb_forall. intros c _. unfold harmless, faults.
    destruct (is_print c) eqn:E1; [reflexivity|].
    destruct (is_font_load c) eqn:E2; [reflexivity|].
    now rewrite (Hok c E1 E2). }
  rewrite E in Ho, Hs. rewrite Eh in Hf.
  repeat split; [assumption..|].
  eexists. split; [exact Hf|]. split; reflexivity.
Qed.

(** X6: on every machine, returning or raising, no file other than
    "icon.png" is created, changed or removed. *)
Theorem other_files_never_touched (fs0 : gmap string File) (fp : string) :
  fp <> "icon.png" ->
  fs (snd (generate_icon raises (initial_world fs0))) !! fp = fs0 !! fp.
Proof.
  intros Hfp. destruct (generate_icon_any_machine raises fs0) as (_ & _ & _ & Hf & _).
  rewrite Hf. destruct (forallb _ _); [|reflexivity]. now apply lookup_insert_ne.
Qed.


(** X8: running the script a second time on the same machine, over the
    files the first run left, ends the same way, makes the same calls,
    prints the same and leaves the files as the first run left them. *)
Theorem rerun_changes_nothing (fs0 : gmap string File) :
  let r1 := main raises (initial_world fs0) in
  let r2 := main raises (initial_world (fs (snd r1))) in
  fst r2 = fst r1 /\ fs (snd r2) = fs (snd r1) /\
  stdout (snd r2) = stdout (snd r1) /\ trace (snd r2) = trace (snd r1).
Proof.
  cbv zeta. rewrite !main_outcome. cbn [fst snd].
  destruct (generate_icon_any_machine raises fs0) as (Ht & Ho & Hs & Hf & _).
  destruct (generate_icon_any_machine raises
              (fs (snd (generate_icon raises (initial_world fs0)))))
    as (Ht' & Ho' & Hs' & Hf' & _).
  rewrite Ho', Ho, Hs', Hs, Ht', Ht. repeat split.
  rewrite Hf', Hf. destruct (forallb _ _); [|reflexivity].
  apply insert_insert_eq.
Qed.

(** X9: the font chain always hands back two handles of one tier: either
    both are the default font, and then a load raised in each of the two
    TrueType tiers, or both are TrueType handles of the same file at 140
    and 40, both of whose loads went through; the Windows path is only
    used when a load of "arial.ttf" raised. *)
Theorem font_handles_come_from_one_tier (w : World F) :
  exists font_large font_emoji w',
    load_fonts raises w = (Returns (font_large, font_emoji), w') /\
    ((font_large = DefaultFont /\ font_emoji = DefaultFont /\
      (raises (truetype_call "arial.ttf" 140) = true \/
       raises (truetype_call "arial.ttf" 40) = true) /\
      (raises (truetype_call "C:/Windows/Fonts/arial.ttf" 140) = true \/
       raises (truetype_call "C:/Windows/Fonts/arial.ttf" 40) = true)) \/
     exists path,
       font_large = TrueTypeFont path 140 /\ font_emoji = TrueTypeFont path 40 /\
       raises (truetype_call path 140) = false /\
       raises (truetype_call path 40) = false /\
       (path = "arial.ttf" \/
        path = "C:/Windows/Fonts/arial.ttf" /\
        (raises (truetype_call "arial.ttf" 140) = true \/
         raises (truetype_call "arial.ttf" 40) = true))).
Proof.
  do 3 eexists. split; [apply load_fonts_run|].
  unfold resolved_font, tier_ok.
  destruct (raises (truetype_call "arial.ttf" 140)) eqn:E1;
    destruct (raises (truetype_call "arial.ttf" 40)) eqn:E2;
    destruct (raises (truetype_call "C:/Windows/Fonts/arial.ttf" 140)) eqn:E3;
    destruct (raises (truetype_call "C:/Windows/Fonts/arial.ttf" 40)) eqn:E4;
    cbn [negb andb];
    first [ left; repeat split; auto; fail
          | right; eexists; repeat split; eauto; fail ].
Qed.

End Outcomes.

(** ** What ends up on top *)

Section Layers.

Context {F : Type} `{Floats F} {Rst : Raster F}.
Variable raises : Call F -> bool.

(** The saved canvas, drawing step by drawing step from the last one. *)
Lemma getpixel_final_canvas (font : Font) (x y : Z) :
  getpixel (final_canvas font) x y =
  if in_ellipse (heart_bbox (780, 680)) x y then (255, 105, 180, 150)
  else if in_ellipse (heart_bbox (240, 340)) x y then (255, 105, 180, 150)
  else getpixel (canvas_stars font) x y.
Proof. reflexivity. Qed.

Lemma getpixel_canvas_stars (font : Font) (x y : Z) :
  getpixel (canvas_stars font) x y =
  if in_polygon (star_points (860, 820)) x y then (255, 215, 0, 200)
  else if in_polygon (star_points (160, 780)) x y then (255, 215, 0, 200)
  else if in_polygon (star_points (844, 180)) x y then (255, 215, 0, 200)
  else if in_polygon (star_points (180, 200)) x y then (255, 215, 0, 200)
  else getpixel (canvas_labels font) x y.
Proof. reflexivity. Qed.

Lemma getpixel_canvas_labels (font : Font) (x y : Z) :
  paste_covers (512 - label_width "Hello" font / 2 - 50, 325) (hello_rotated font) x y
    = false ->
  paste_covers (512 - label_width "World" font / 2 - 50, 495) (world_rotated font) x y
    = false ->
  getpixel (canvas_labels font) x y =
  if on_outline (32, 32, 992, 992) 8 x y then (222, 226, 230, 255)
  else (248, 249, 250, 255).
Proof.
  intros P1 P2. unfold canvas_labels, paste_pixels, set_pixels. cbn [getpixel].
  rewrite P1, P2. unfold background, ellipse_pixels, set_pixels.
  cbn [getpixel new_image]. cbn [Color_eqb item0 item1 item2 item3].
  cbn. destruct (on_outline _ 8 x y); [reflexivity|].
  now destruct (in_ellipse _ x y).
Qed.

Lemma saved_pixel_final (fs0 : gmap string File) (x y : Z) :
  no_fault raises ->
  saved_pixel (fs (snd (generate_icon raises (initial_world fs0)))) "icon.png" x y =
  Some (getpixel (final_canvas (resolved_font raises 140)) x y).
Proof.
  intros Hnf. rewrite generate_icon_run by assumption.
  unfold saved_pixel. cbn [snd final_world fs]. now rewrite lookup_insert_eq.
Qed.

(** X10: the hearts are drawn last and are not blended: in a run without
    faults every pixel inside a heart's ellipse is saved as exactly
    (255, 105, 180, 150), whatever label or star was drawn there before;
    the saved icon is therefore not opaque there. *)
Theorem heart_pixels_are_pink (fs0 : gmap string File) (pos : Z * Z) (x y : Z) :
  no_fault raises ->
  pos ∈ [(240, 340); (780, 680)] ->
  in_ellipse (fst pos - 15, snd pos - 15, fst pos + 15, snd pos + 15) x y = true ->
  saved_pixel (fs (snd (generate_icon raises (initial_world fs0)))) "icon.png" x y
    = Some (255, 105, 180, 150).
Proof.
  intros Hnf Hpos Hin. rewrite saved_pixel_final by assumption.
  rewrite getpixel_final_canvas. unfold heart_bbox. cbn [fst snd].
  rewrite !elem_of_cons, elem_of_nil in Hpos.
  destruct Hpos as [-> | [-> | []]]; cbn [fst snd] in Hin; rewrite Hin.
  - match goal with |- context [if ?b then _ else _] => destruct b end;
      reflexivity.
  - reflexivity.
Qed.

(** X11: the stars are drawn over the labels and under the hearts: in a
    run without faults a pixel inside one of the four star polygons and
    inside no heart is saved as exactly (255, 215, 0, 200). *)
Theorem star_pixels_are_gold (fs0 : gmap string File) (pos : Z * Z) (x y : Z) :
  no_fault raises ->
  pos ∈ [(180, 200); (844, 180); (160, 780); (860, 820)] ->
  in_polygon (star_points pos) x y = true ->
  in_ellipse (240 - 15, 340 - 15, 240 + 15, 340 + 15) x y = false ->
  in_ellipse (780 - 15, 680 - 15, 780 + 15, 680 + 15) x y = false ->
  saved_pixel (fs (snd (generate_icon raises (initial_world fs0)))) "icon.png" x y
    = Some (255, 215, 0, 200).
Proof.
  intros Hnf Hpos Hin H1 H2. rewrite saved_pixel_final by assumption.
  rewrite getpixel_final_canvas. unfold heart_bbox. cbn [fst snd].
  rewrite H1, H2, getpixel_canvas_stars.
  rewrite !elem_of_cons, elem_of_nil in Hpos.
  destruct Hpos as [-> | [-> | [-> | [-> | []]]]]; rewrite Hin;
    repeat match goal with |- context [if ?b then _ else _] => destruct b end;
    reflexivity.
Qed.

(** X12: in a run without faults every pixel that no pasted label, no
    star and no heart covers is saved opaque, in the border color
    (222, 226, 230, 255) on the outline of the circle and in the
    background color (248, 249, 250, 255) everywhere else, inside and
    outside the circle alike. *)
Theorem uncovered_pixels_show_the_badge (fs0 : gmap string File) (x y : Z) :
  no_fault raises ->
  let w := snd (generate_icon raises (initial_world fs0)) in
  (forall im src box mask m,
     paste_call im src box mask ∈ trace w -> heap w !! mask = Some m ->
     paste_covers box m x y = false) ->
  (forall d xy fill,
     polygon_call d xy fill ∈ trace w -> in_polygon xy x y = false) ->
  in_ellipse (240 - 15, 340 - 15, 240 + 15, 340 + 15) x y = false ->
  in_ellipse (780 - 15, 680 - 15, 780 + 15, 680 + 15) x y = false ->
  saved_pixel (fs w) "icon.png" x y =
  Some (if on_outline (32, 32, 992, 992) 8 x y
        then (222, 226, 230, 255) else (248, 249, 250, 255)).
Proof.
  intros Hnf. cbv zeta. rewrite saved_pixel_final by assumption.
  rewrite generate_icon_run by assumption. cbn [snd final_world trace heap].
  set (font := resolved_font raises 140).
  intros Hpaste Hpoly H1 H2.
  rewrite getpixel_final_canvas. unfold heart_bbox. cbn [fst snd].
  rewrite H1, H2, getpixel_canvas_stars.
  assert (S : forall pos, pos ∈ sparkle_positions ->
                in_polygon (star_points pos) x y = false).
  { intros pos Hpos. apply (Hpoly (Draw 0) _ (255, 215, 0, 200)).
    unfold final_trace. do 4 (apply elem_of_app; right).
    apply elem_of_app; left. apply list_elem_of_fmap. now exists pos. }
  rewrite !S by (unfold sparkle_positions; find_call).
  f_equal. apply getpixel_canvas_labels.
  - apply (Hpaste 0%nat 2%nat _ 2%nat); [|reflexivity].
    unfold final_trace, label_trace. find_call.
  - apply (Hpaste 0%nat 4%nat _ 4%nat); [|reflexivity].
    unfold final_trace, label_trace. find_call.
Qed.

End Layers.

(** ** The shape of a star *)

Section StarShape.

Open Scope R_scope.

(** X13: in real arithmetic every vertex of a star lies on a circle
    around the star's position, of radius 20 for the even vertices and
    10 for the odd ones. *)
Theorem star_vertices_on_two_circles (pos : Z * Z) (i : nat) (p : R * R) :
  star_points pos !! i = Some p ->
  (fst p - IZR (fst pos)) ^ 2 + (snd p - IZR (snd pos)) ^ 2 =
  IZR (if Nat.even i then 20 else 10) ^ 2.
Proof.
  intros Hp.
  assert (Hlt : (i < 10)%nat).
  { apply lookup_lt_Some in Hp. now rewrite star_points_length in Hp. }
  rewrite star_points_lookup in Hp by assumption. injection Hp as <-.
  cbn [fst snd of_int fadd fmul math_cos math_sin math_radians Floats_R].
  set (a := IZR (Z.of_nat i * 36 - 90) * (PI / 180)).
  set (r := IZR (if Nat.even i then 20 else 10)).
  assert (E := sin2_cos2 a). unfold Rsqr in E.
  replace ((IZR (fst pos) + r * cos a - IZR (fst pos)) ^ 2 +
           (IZR (snd pos) + r * sin a - IZR (snd pos)) ^ 2)
    with (r ^ 2 * (sin a * sin a + cos a * cos a)) by ring.
  rewrite E. ring.
Qed.

End StarShape.

(** * The routine on concrete machines *)

#[local] Existing Instance flat_raster.
#[local] Existing Instance flat_raster_R.

Ltac only_font_loads_raise :=
  intros c Hc; destruct c; first [reflexivity | discriminate Hc].

(** The symbolic vertices stand for the real ones. *)
Lemma Rval_star_points (pos : Z * Z) :
  map (fun p => (Rval (fst p), Rval (snd p))) (star_points (F := Sym) pos) =
  star_points (F := R) pos.
Proof. reflexivity. Qed.

Example run_on_flat_returns :
  fst (generate_icon (Rst := flat_raster) all_fonts (initial_world ∅)) = Returns "icon.png".
Proof. vm_compute. reflexivity. Qed.

Example font_loads_without_40pt :
  filter is_font_load
    (trace (snd (generate_icon (Rst := flat_raster) no_40pt (initial_world ∅)))) =
  [truetype_call "arial.ttf" 140; truetype_call "arial.ttf" 40;
   truetype_call "C:/Windows/Fonts/arial.ttf" 140;
   truetype_call "C:/Windows/Fonts/arial.ttf" 40;
   load_default_call; load_default_call].
Proof. vm_compute. reflexivity. Qed.

Example font_loads_without_truetype :
  filter is_font_load
    (trace (snd (generate_icon (Rst := flat_raster) no_truetype (initial_world ∅)))) =
  [truetype_call "arial.ttf" 140;
   truetype_call "C:/Windows/Fonts/arial.ttf" 140;
   load_default_call; load_default_call].
Proof. vm_compute. reflexivity. Qed.

(** A fault in [save] is not handled: nothing is written or printed. *)
Example save_fault_propagates :
  let run := generate_icon (Rst := flat_raster) unwritable (initial_world ∅) in
  fst run = Raised /\ fs (snd run) = ∅ /\ stdout (snd run) = [].
Proof. vm_compute. repeat split. Qed.

(** Background, border, "Hello", "World", a star and a heart. *)
Example sampled_pixels_on_flat :
  let files := fs (snd (generate_icon (Rst := flat_raster) all_fonts (initial_world ∅))) in
  saved_pixel files "icon.png" 512 512 = Some (248, 249, 250, 255) /\
  saved_pixel files "icon.png" 36 512 = Some (222, 226, 230, 255) /\
  saved_pixel files "icon.png" 512 400 = Some (255, 59, 48, 255) /\
  saved_pixel files "icon.png" 512 600 = Some (0, 122, 255, 255) /\
  saved_pixel files "icon.png" 180 190 = Some (255, 215, 0, 200) /\
  saved_pixel files "icon.png" 240 340 = Some (255, 105, 180, 150) /\
  saved_pixel files "missing.png" 0 0 = None.
Proof. vm_compute. repeat split. Qed.

(** On a machine without any TrueType font, over an existing "icon.png". *)
Lemma generate_icon_writes_icon_png_witness :
  exists w canvas,
    generate_icon (Rst := flat_raster) no_truetype
      (initial_world {[ "icon.png" := Bytes [71; 73; 70] ]}) = (Returns "icon.png", w) /\
    heap w !! 0%nat = Some canvas /\
    fs w !! "icon.png" = Some (Encoded "PNG" canvas) /\
    (forall fp, fp <> "icon.png" ->
       fs w !! fp = ({[ "icon.png" := Bytes [71; 73; 70] ]} : gmap string File) !! fp) /\
    segment [save_call 0 "icon.png" "PNG"] (trace w).
Proof.
  apply (generate_icon_writes_icon_png (Rst := flat_raster) no_truetype).
  only_font_loads_raise.
Defined.

Lemma canvas_is_1024_square_rgba_witness :
  exists w0 canvas0 w canvas,
    Image_new (F := Sym) all_fonts "RGBA" (1024, 1024) (248, 249, 250, 255)
      (initial_world ∅) = (Returns 0%nat, w0) /\
    heap w0 = [canvas0] /\
    im_mode canvas0 = "RGBA" /\ im_size canvas0 = (1024, 1024) /\
    (forall x y, getpixel canvas0 x y = (248, 249, 250, 255)) /\
    alpha (248, 249, 250, 255) = 255 /\
    generate_icon (Rst := flat_raster) all_fonts (initial_world ∅)
      = (Returns "icon.png", w) /\
    head (trace w) = Some (Image_new_call "RGBA" (1024, 1024) (248, 249, 250, 255)) /\
    fs w !! "icon.png" = Some (Encoded "PNG" canvas) /\
    im_mode canvas = "RGBA" /\ im_size canvas = (1024, 1024).
Proof.
  apply (canvas_is_1024_square_rgba (Rst := flat_raster) all_fonts).
  intros c _. reflexivity.
Defined.

(** On a machine where the 40pt loads fail the chain ends in tier 3. *)
Lemma font_resolution_three_tiers_witness :
  exists w pre post,
    generate_icon (Rst := flat_raster) no_40pt (initial_world ∅)
      = (Returns "icon.png", w) /\
    trace w = pre ++ font_trace no_40pt ++ post /\
    forallb (fun c => negb (is_font_load c) && negb (is_text_op c)) pre = true /\
    forallb (fun c => negb (is_font_load c)) post = true /\
    filter is_text_op post =
      [textbbox_call (Draw 0) (0, 0) "Hello" DefaultFont;
       text_call (Draw 1) (50, 25) "Hello" DefaultFont (255, 59, 48, 255);
       textbbox_call (Draw 0) (0, 0) "World" DefaultFont;
       text_call (Draw 3) (50, 25) "World" DefaultFont (0, 122, 255, 255)] /\
    stdout w = ["Icon generated successfully as icon.png"].
Proof.
  destruct (font_resolution_three_tiers (Rst := flat_raster) no_40pt)
    as (_ & _ & _ & _ & _ & _ & Hrun).
  apply Hrun. only_font_loads_raise.
Defined.

(** With Arial installed and glyph boxes of 70 by 140, each label measures
    350 by 140 and its layer is 450 by 190. *)
Lemma label_layer_padding_and_inset_witness :
  let font := TrueTypeFont "arial.ttf" 140 in
  exists w,
    generate_icon (Rst := flat_raster) all_fonts (initial_world ∅)
      = (Returns "icon.png", w) /\
    segment [textbbox_call (Draw 0) (0, 0) "Hello" font;
             Image_new_call "RGBA" (450, 190) (0, 0, 0, 0);
             ImageDraw_Draw_call 1;
             text_call (Draw 1) (50, 25) "Hello" font (255, 59, 48, 255)]
            (trace w) /\
    heap w !! 1%nat =
      Some (text_pixels (50, 25) "Hello" font (255, 59, 48, 255)
              (new_image "RGBA" (450, 190) (0, 0, 0, 0))) /\
    segment [textbbox_call (Draw 0) (0, 0) "World" font;
             Image_new_call "RGBA" (450, 190) (0, 0, 0, 0);
             ImageDraw_Draw_call 3;
             text_call (Draw 3) (50, 25) "World" font (0, 122, 255, 255)]
            (trace w) /\
    heap w !! 3%nat =
      Some (text_pixels (50, 25) "World" font (0, 122, 255, 255)
              (new_image "RGBA" (450, 190) (0, 0, 0, 0))) /\
    (forall size x y,
       im_size (new_image "RGBA" size (0, 0, 0, 0)) = size /\
       getpixel (new_image "RGBA" size (0, 0, 0, 0)) x y = (0, 0, 0, 0)).
Proof.
  apply (label_layer_padding_and_inset (Rst := flat_raster) all_fonts ∅).
  intros c _. reflexivity.
Defined.

Lemma label_rotation_angles_witness :
  exists w hello_img world_img,
    generate_icon (Rst := flat_raster) no_truetype (initial_world ∅)
      = (Returns "icon.png", w) /\
    filter is_rotate (trace w) = [rotate_call 1 (-8) true; rotate_call 3 5 true] /\
    segment [text_call (Draw 1) (50, 25) "Hello" DefaultFont (255, 59, 48, 255);
             rotate_call 1 (-8) true] (trace w) /\
    segment [text_call (Draw 3) (50, 25) "World" DefaultFont (0, 122, 255, 255);
             rotate_call 3 5 true] (trace w) /\
    heap w !! 1%nat = Some hello_img /\
    heap w !! 2%nat = Some (rotate_image hello_img (-8) true) /\
    heap w !! 3%nat = Some world_img /\
    heap w !! 4%nat = Some (rotate_image world_img 5 true).
Proof.
  apply (label_rotation_angles (Rst := flat_raster) no_truetype ∅).
  only_font_loads_raise.
Defined.

(** 512 - 350 // 2 - 50 = 287. *)
Lemma label_paste_positions_witness :
  exists w hello_rot world_rot,
    generate_icon (Rst := flat_raster) all_fonts (initial_world ∅)
      = (Returns "icon.png", w) /\
    filter is_paste (trace w) =
      [paste_call 0 2 (287, 325) 2; paste_call 0 4 (287, 495) 4] /\
    segment [rotate_call 1 (-8) true; paste_call 0 2 (287, 325) 2] (trace w) /\
    segment [rotate_call 3 5 true; paste_call 0 4 (287, 495) 4] (trace w) /\
    heap w !! 2%nat = Some hello_rot /\
    heap w !! 4%nat = Some world_rot.
Proof.
  apply (label_paste_positions (Rst := flat_raster) all_fonts ∅).
  intros c _. reflexivity.
Defined.

(** With the solid glyph boxes the labels occupy rows 350..489 and
    520..659, and the stars stay near their corners: nothing covers the
    center. *)
Lemma center_pixel_is_background_witness :
  let w := snd (generate_icon (Rst := flat_raster) all_fonts (initial_world ∅)) in
  exists canvas,
    generate_icon (Rst := flat_raster) all_fonts (initial_world ∅)
      = (Returns "icon.png", w) /\
    heap w !! 0%nat = Some canvas /\
    fs w !! "icon.png" = Some (Encoded "PNG" canvas) /\
    getpixel canvas 512 512 = (248, 249, 250, 255) /\
    alpha (getpixel canvas 512 512) = 255.
Proof.
  apply (center_pixel_is_background (Rst := flat_raster) all_fonts ∅).
  - intros c _. reflexivity.
  - set (w := snd (generate_icon (Rst := flat_raster) all_fonts (initial_world ∅))).
    assert (A : forallb (fun c =>
                  match c with
                  | paste_call _ _ box mask =>
                      match heap w !! mask with
                      | Some m => negb (paste_covers box m 512 512)
                      | None => true
                      end
                  | _ => true
                  end) (trace w) = true) by (vm_compute; reflexivity).
    intros im src box mask m Hin Hm.
    rewrite forallb_forall in A. apply list_elem_of_In in Hin.
    specialize (A _ Hin). cbn beta iota in A. rewrite Hm in A.
    apply negb_true_iff in A. exact A.
  - set (w := snd (generate_icon (Rst := flat_raster) all_fonts (initial_world ∅))).
    assert (A : forallb (fun c =>
                  match c with
                  | polygon_call _ xy _ => negb (in_polygon xy 512 512)
                  | _ => true
                  end) (trace w) = true) by (vm_compute; reflexivity).
    intros d xy fill Hin.
    rewrite forallb_forall in A. apply list_elem_of_In in Hin.
    specialize (A _ Hin). cbn beta iota in A.
    apply negb_true_iff in A. exact A.
Defined.

Lemma star_polygon_vertices_witness :
  exists w,
    generate_icon (Rst := flat_raster_R) all_fonts (initial_world ∅)
      = (Returns "icon.png", w) /\
    filter is_polygon (trace w) =
      map (fun pos => polygon_call (Draw 0) (star_points pos) (255, 215, 0, 200))
        [(180, 200); (844, 180); (160, 780); (860, 820)] /\
    forall pos : Z * Z,
      length (star_points (F := R) pos) = 10%nat /\
      (forall i : nat, (i < 10)%nat ->
         let r := IZR (if Nat.even i then 20 else 10) in
         let a := (IZR (Z.of_nat i * 36 - 90) * (PI / 180))%R in
         star_points pos !! i =
         Some ((IZR (fst pos) + r * cos a)%R, (IZR (snd pos) + r * sin a)%R)) /\
      star_points pos !! 0%nat = Some (IZR (fst pos), (IZR (snd pos) - 20)%R).
Proof.
  apply (star_polygon_vertices (Rst := flat_raster_R) all_fonts ∅).
  intros c _. reflexivity.
Defined.

Lemma decorations_within_canvas_witness :
  exists w,
    generate_icon (Rst := flat_raster_R) no_truetype (initial_world ∅)
      = (Returns "icon.png", w) /\
    (forall d xy fill, polygon_call d xy fill ∈ trace w ->
       forall p, p ∈ xy ->
         (0 <= fst p <= 1024)%R /\ (0 <= snd p <= 1024)%R) /\
    (forall d xy fill outline width,
       ellipse_call d xy fill outline width ∈ trace w ->
       0 <= item0 xy <= 1024 /\ 0 <= item1 xy <= 1024 /\
       0 <= item2 xy <= 1024 /\ 0 <= item3 xy <= 1024) /\
    (forall pos, pos ∈ [(180, 200); (844, 180); (160, 780); (860, 820)] ->
       0 <= fst pos - 20 /\ fst pos + 20 <= 1024 /\
       0 <= snd pos - 20 /\ snd pos + 20 <= 1024) /\
    (forall pos, pos ∈ [(240, 340); (780, 680)] ->
       (0 <= fst pos - 15 /\ fst pos + 15 <= 1024 /\
        0 <= snd pos - 15 /\ snd pos + 15 <= 1024) /\
       ellipse_call (Draw 0) (fst pos - 15, snd pos - 15, fst pos + 15, snd pos + 15)
         (Some (255, 105, 180, 150)) None 1 ∈ trace w /\
       forall x y : Z,
         in_ellipse (fst pos - 15, snd pos - 15, fst pos + 15, snd pos + 15) x y = true ->
         0 <= x <= 1024 /\ 0 <= y <= 1024).
Proof.
  apply (decorations_within_canvas (Rst := flat_raster_R) no_truetype ∅).
  only_font_loads_raise.
Defined.

(** A machine whose fonts load at both sizes or not at all. *)
Lemma font_emoji_is_dead_when_it_loads_witness :
  fst (generate_icon (Rst := flat_raster) no_truetype (initial_world ∅)) =
  fst (generate_icon_without_font_emoji (Rst := flat_raster) no_truetype (initial_world ∅)) /\
  same_output
    (snd (generate_icon (Rst := flat_raster) no_truetype (initial_world ∅)))
    (snd (generate_icon_without_font_emoji (Rst := flat_raster) no_truetype
            (initial_world ∅))).
Proof.
  apply (font_emoji_is_dead_when_it_loads (Rst := flat_raster) no_truetype ∅).
  intros path E. discriminate E.
Defined.

(** C10 as stated fails on a machine where the fonts load at 140pt and
    not at 40pt: no drawing or file operation faults and both routines
    return "icon.png", but [generate_icon] falls back to the default font
    while the routine that never loads [font_emoji] draws in Arial; the
    saved images differ at pixel (512, 400), background in the first and
    the red of "Hello" in the second. *)
Lemma font_emoji_load_changes_the_icon :
  let run := generate_icon (Rst := flat_raster) no_40pt (initial_world ∅) in
  let run' :=
    generate_icon_without_font_emoji (Rst := flat_raster) no_40pt (initial_world ∅) in
  no_fault (F := Sym) no_40pt /\
  fst run = Returns "icon.png" /\
  fst run' = Returns "icon.png" /\
  saved_pixel (fs (snd run)) "icon.png" 512 400 = Some (248, 249, 250, 255) /\
  saved_pixel (fs (snd run')) "icon.png" 512 400 = Some (255, 59, 48, 255) /\
  ~ same_output (snd run) (snd run').
Proof.
  cbv zeta.
  assert (P : saved_pixel
                (fs (snd (generate_icon (Rst := flat_raster) no_40pt (initial_world ∅))))
                "icon.png" 512 400 = Some (248, 249, 250, 255))
    by (vm_compute; reflexivity).
  assert (P' : saved_pixel
                 (fs (snd (generate_icon_without_font_emoji (Rst := flat_raster)
                             no_40pt (initial_world ∅))))
                 "icon.png" 512 400 = Some (255, 59, 48, 255))
    by (vm_compute; reflexivity).
  split; [only_font_loads_raise|].
  split; [vm_compute; reflexivity|].
  split; [vm_compute; reflexivity|].
  split; [exact P|]. split; [exact P'|].
  intros (_ & E & _). rewrite E in P. rewrite P in P'. discriminate P'.
Qed.


Lemma print_fault_keeps_written_icon_witness :
  let r := generate_icon (Rst := flat_raster) no_console (initial_world ∅) in
  fst r = Raised /\ stdout (snd r) = [] /\
  exists canvas,
    fs (snd r) = <["icon.png" := Encoded "PNG" canvas]> ∅ /\
    im_mode canvas = "RGBA" /\ im_size canvas = (1024, 1024).
Proof.
  apply (print_fault_keeps_written_icon (Rst := flat_raster) no_console ∅).
  - intros c Hp Hl. destruct c; first [reflexivity | discriminate Hp].
  - reflexivity.
Defined.

Lemma other_files_never_touched_witness :
  fs (snd (generate_icon (Rst := flat_raster) no_40pt
             (initial_world {[ "notes.txt" := Bytes [104; 105] ]}))) !! "notes.txt" =
  ({[ "notes.txt" := Bytes [104; 105] ]} : gmap string File) !! "notes.txt".
Proof.
  apply (other_files_never_touched (Rst := flat_raster) no_40pt).
  discriminate.
Defined.


Lemma heart_pixels_are_pink_witness :
  saved_pixel (fs (snd (generate_icon (Rst := flat_raster) all_fonts (initial_world ∅))))
    "icon.png" 250 345 = Some (255, 105, 180, 150).
Proof.
  apply (heart_pixels_are_pink (Rst := flat_raster) all_fonts ∅ (240, 340)).
  - intros c _. reflexivity.
  - apply list_elem_of_here.
  - vm_compute. reflexivity.
Defined.

Lemma star_pixels_are_gold_witness :
  saved_pixel (fs (snd (generate_icon (Rst := flat_raster) no_truetype (initial_world ∅))))
    "icon.png" 850 170 = Some (255, 215, 0, 200).
Proof.
  apply (star_pixels_are_gold (Rst := flat_raster) no_truetype ∅ (844, 180)).
  - only_font_loads_raise.
  - apply list_elem_of_further, list_elem_of_here.
  - vm_compute. reflexivity.
  - vm_compute. reflexivity.
  - vm_compute. reflexivity.
Defined.

(** Pixel (36, 512) lies on the 8 pixel wide outline of the circle. *)
Lemma uncovered_pixels_show_the_badge_witness :
  saved_pixel (fs (snd (generate_icon (Rst := flat_raster) all_fonts (initial_world ∅))))
    "icon.png" 36 512 =
  Some (if on_outline (32, 32, 992, 992) 8 36 512
        then (222, 226, 230, 255) else (248, 249, 250, 255)).
Proof.
  apply (uncovered_pixels_show_the_badge (Rst := flat_raster) all_fonts ∅ 36 512).
  - intros c _. reflexivity.
  - set (w := snd (generate_icon (Rst := flat_raster) all_fonts (initial_world ∅))).
    assert (A : forallb (fun c =>
                  match c with
                  | paste_call _ _ box mask =>
                      match heap w !! mask with
                      | Some m => negb (paste_covers box m 36 512)
                      | None => true
                      end
                  | _ => true
                  end) (trace w) = true) by (vm_compute; reflexivity).
    intros im src box mask m Hin Hm.
    rewrite forallb_forall in A. apply list_elem_of_In in Hin.
    specialize (A _ Hin). cbn beta iota in A. rewrite Hm in A.
    apply negb_true_iff in A. exact A.
  - set (w := snd (generate_icon (Rst := flat_raster) all_fonts (initial_world ∅))).
    assert (A : forallb (fun c =>
                  match c with
                  | polygon_call _ xy _ => negb (in_polygon xy 36 512)
                  | _ => true
                  end) (trace w) = true) by (vm_compute; reflexivity).
    intros d xy fill Hin.
    rewrite forallb_forall in A. apply list_elem_of_In in Hin.
    specialize (A _ Hin). cbn beta iota in A.
    apply negb_true_iff in A. exact A.
  - vm_compute. reflexivity.
  - vm_compute. reflexivity.
Defined.

(** Vertex 3 of the first star, an inner one. *)
Lemma star_vertices_on_two_circles_witness :
  let p := ((IZR 180 + IZR 10 * cos (IZR 18 * (PI / 180)))%R,
            (IZR 200 + IZR 10 * sin (IZR 18 * (PI / 180)))%R) in
  ((fst p - IZR 180) ^ 2 + (snd p - IZR 200) ^ 2 = IZR 10 ^ 2)%R.
Proof.
  intros p. apply (star_vertices_on_two_circles (180, 200) 3 p).
  reflexivity.
Defined.

Example print_fault_on_flat :
  let r := generate_icon (Rst := flat_raster) no_console (initial_world ∅) in
  fst r = Raised /\
  saved_pixel (fs (snd r)) "icon.png" 512 512 = Some (248, 249, 250, 255) /\
  last (trace (snd r)) = Some (print_call "Icon generated successfully as icon.png").
Proof. vm_compute. repeat split. Qed.

Example second_run_on_flat :
  let r1 := main (Rst := flat_raster) all_fonts (initial_world ∅) in
  let r2 := main (Rst := flat_raster) all_fonts (initial_world (fs (snd r1))) in
  fst r1 = Returns tt /\ fst r2 = Returns tt /\
  saved_pixel (fs (snd r2)) "icon.png" 512 400 = Some (255, 59, 48, 255).
Proof. vm_compute. repeat split. Qed.
